(** * texar.utils.rnn : dynamic unrolling of a recurrent cell

    A shallow embedding of [src/texar/utils/rnn.py] ([dynamic_rnn] and
    [_dynamic_rnn_loop]) together with the part of the Python / PyTorch
    runtime that decides which exception the two functions raise.

    - Tensors are nested lists that carry the shape of their items, so a
      tensor with a zero leading extent still knows its trailing axes.
    - Python values that travel through the driver (inputs, recurrent
      state, cell outputs) are tensors or tuples of values.
    - Effects: every computation returns the trace of cell events it
      caused (zero-state constructions and step invocations, in order)
      next to either a value or the exception that aborted it. *)

From Stdlib Require Import List ZArith Bool Lia PeanoNat.
Import ListNotations.

Set Implicit Arguments.
Set Warnings "-register-all".

(** ** Exceptions and results *)

Inductive exn : Type :=
| TypeError
| ValueError
| AttributeError
| IndexError
| RuntimeError
| OtherError (tag : nat).

Inductive result (A : Type) : Type :=
| Ok (a : A)
| Err (e : exn).

Arguments Ok {A} a.
Arguments Err {A} e.

Definition rbind {A B} (r : result A) (k : A -> result B) : result B :=
  match r with
  | Ok a => k a
  | Err e => Err e
  end.

(** ** Tensors *)

(** [Nd inner items] is a tensor of rank [1 + length inner] whose leading
    axis has [length items] entries, each of shape [inner]. *)
Inductive tensor (A : Type) : Type :=
| Scalar (a : A)
| Nd (inner : list nat) (items : list (tensor A)).

Arguments Scalar {A} a.
Arguments Nd {A} inner items.

Definition shape {A} (t : tensor A) : list nat :=
  match t with
  | Scalar _ => []
  | Nd inner items => length items :: inner
  end.

(** [Tensor.dim()] *)
Definition dim {A} (t : tensor A) : nat := length (shape t).

Fixpoint shape_eqb (s1 s2 : list nat) : bool :=
  match s1, s2 with
  | [], [] => true
  | a :: s1', b :: s2' => Nat.eqb a b && shape_eqb s1' s2'
  | _, _ => false
  end.

(** Every torch tensor is rectangular; [wf_tensor] says so for the
    nested-list representation. *)
Fixpoint wf_tensor {A} (t : tensor A) : bool :=
  match t with
  | Scalar _ => true
  | Nd inner items =>
      forallb (fun x => wf_tensor x && shape_eqb (shape x) inner) items
  end.

Fixpoint tensor_map {A B} (f : A -> B) (t : tensor A) : tensor B :=
  match t with
  | Scalar a => Scalar (f a)
  | Nd inner items => Nd inner (map (tensor_map f) items)
  end.

(** [t[i]] for a tensor and a non-negative index. *)
Definition tensor_getitem {A} (t : tensor A) (i : nat) : result (tensor A) :=
  match t with
  | Scalar _ => Err IndexError
  | Nd _ items =>
      match nth_error items i with
      | Some x => Ok x
      | None => Err IndexError
      end
  end.

(** [size[i]] on a [torch.Size], which is a tuple. *)
Definition size_getitem (size : list nat) (i : nat) : result nat :=
  match nth_error size i with
  | Some n => Ok n
  | None => Err IndexError
  end.

(** The [j]-th item of every item of [xs], skipping items too short. *)
Definition column {A} (j : nat) (xs : list (tensor A)) : list (tensor A) :=
  flat_map (fun x =>
              match x with
              | Scalar _ => []
              | Nd _ ys =>
                  match nth_error ys j with
                  | Some y => [y]
                  | None => []
                  end
              end) xs.

(** [t.permute(1, 0, 2)]: PyTorch refuses a permutation whose length is
    not the rank of the tensor. *)
Definition permute_1_0_2 {A} (t : tensor A) : result (tensor A) :=
  match t with
  | Nd [b; d] items =>
      Ok (Nd [length items; d]
             (map (fun j => Nd [d] (column j items)) (seq 0 b)))
  | _ => Err RuntimeError
  end.

(** [".. %s" % size]: a [torch.Size] is a tuple, so the [%] operator takes
    its entries as the arguments of the format; one [%s] wants exactly one. *)
Definition percent_format_size (size : list nat) : result unit :=
  if Nat.eqb (length size) 1 then Ok tt else Err TypeError.

(** Conversion to [torch.int32]: two's-complement wrap-around. *)
Definition to_int32 (z : Z) : Z :=
  ((z + 2147483648) mod 4294967296 - 2147483648)%Z.

(** [Tensor.tolist()] followed by iteration with integer comparison: only
    a one-dimensional tensor yields a list of integers. *)
Fixpoint scalars (items : list (tensor Z)) : result (list Z) :=
  match items with
  | [] => Ok []
  | Scalar z :: rest => rbind (scalars rest) (fun zs => Ok (z :: zs))
  | Nd _ _ :: _ => Err TypeError
  end.

Definition tolist (t : tensor Z) : result (list Z) :=
  match t with
  | Scalar _ => Err TypeError
  | Nd _ items => scalars items
  end.

(** [torch.tensor([n] * k)] *)
Definition full_vector (n k : nat) : tensor Z :=
  Nd [] (repeat (Scalar (Z.of_nat n)) k).

(** ** Python values, cells and the trace of cell events *)

Section Rnn.

(** Element type of the data tensors; the driver never looks inside. *)
Variable F : Type.

(** [texar.utils.shapes.mask_sequences(sequence, sequence_length,
    time_major=True)]: a collaborator that lives outside this module. *)
Variable mask_sequences : tensor F -> tensor Z -> result (tensor F).

Inductive value : Type :=
| VTensor (t : tensor F)
| VTuple (items : list value).

(** [isinstance(v, tuple)] *)
Definition is_tuple_value (v : value) : bool :=
  match v with
  | VTensor _ => false
  | VTuple _ => true
  end.

(** [v[i]] for a value and a non-negative index. *)
Definition getitem (v : value) (i : nat) : result value :=
  match v with
  | VTensor t => rbind (tensor_getitem t i) (fun x => Ok (VTensor x))
  | VTuple items =>
      match nth_error items i with
      | Some x => Ok x
      | None => Err IndexError
      end
  end.

(** [l[i]] for a Python list and a non-negative index. *)
Definition list_getitem {A} (l : list A) (i : nat) : result A :=
  match nth_error l i with
  | Some x => Ok x
  | None => Err IndexError
  end.

(** Attribute access [v.shape] / [v.permute]: only tensors have them;
    [None] and tuples do not. *)
Definition tensor_attr (v : option value) : result (tensor F) :=
  match v with
  | Some (VTensor t) => Ok t
  | _ => Err AttributeError
  end.

Fixpoint as_tensors (vs : list value) : option (list (tensor F)) :=
  match vs with
  | [] => Some []
  | VTensor t :: rest =>
      match as_tensors rest with
      | Some ts => Some (t :: ts)
      | None => None
      end
  | VTuple _ :: _ => None
  end.

(** [torch.stack(vs, dim=0)] *)
Definition torch_stack (vs : list value) : result (tensor F) :=
  match as_tensors vs with
  | None => Err TypeError
  | Some [] => Err RuntimeError
  | Some (t :: ts) =>
      if forallb (fun x => shape_eqb (shape x) (shape t)) ts
      then Ok (Nd (shape t) (t :: ts))
      else Err RuntimeError
  end.

(** The cell as a Python object: it may or may not be callable and may or
    may not have a [zero_state] method.  A call can raise. *)
Record rnn_cell : Type := {
  cell_call : option (value -> value -> result (value * value));
  cell_zero_state : option (nat -> result value)
}.

(** The expected cell interface: a callable with a [zero_state] method. *)
Definition conforms (cell : rnn_cell) : bool :=
  match cell_call cell, cell_zero_state cell with
  | Some _, Some _ => true
  | _, _ => false
  end.

Inductive event : Type :=
| EvZeroState (batch_size : nat)
| EvCall (input state : value).

Definition is_call (e : event) : bool :=
  match e with
  | EvCall _ _ => true
  | EvZeroState _ => false
  end.

Definition call_count (log : list event) : nat :=
  length (filter is_call log).

(** Inputs of the step invocations of a trace, in order. *)
Definition call_inputs (log : list event) : list value :=
  flat_map (fun e => match e with
                     | EvCall x _ => [x]
                     | EvZeroState _ => []
                     end) log.

Definition M (A : Type) : Type := (list event * result A)%type.

Definition ret {A} (a : A) : M A := ([], Ok a).
Definition raise {A} (e : exn) : M A := ([], Err e).
Definition lift {A} (r : result A) : M A := ([], r).

Definition bind {A B} (m : M A) (k : A -> M B) : M B :=
  match m with
  | (log, Ok a) => let (log', r) := k a in (log ++ log', r)
  | (log, Err e) => (log, Err e)
  end.

Notation "x <- m ;; k" := (bind m (fun x => k))
  (at level 61, m at next level, right associativity).
Notation "' p <- m ;; k" := (bind m (fun x => let p := x in k))
  (at level 61, p pattern, m at next level, right associativity).

(** [cell.zero_state(batch_size=batch_size)] *)
Definition zero_state (cell : rnn_cell) (batch_size : nat) : M value :=
  match cell_zero_state cell with
  | None => raise AttributeError
  | Some z => ([EvZeroState batch_size], z batch_size)
  end.

(** [cell(x, state)]: an object that is not callable raises [TypeError]
    and is not invoked. *)
Definition call_cell (cell : rnn_cell) (x state : value) : M (value * value) :=
  match cell_call cell with
  | None => raise TypeError
  | Some f => ([EvCall x state], f x state)
  end.

(** ** The step loop, [_dynamic_rnn_loop] *)

(** [all_state] and [final_state] are a list, or a pair of lists when the
    state is a tuple. *)
Inductive history : Type :=
| HList (states : list value)
| HPair (first second : list value).

(** [([], []) if is_tuple else []] *)
Definition empty_history (is_tuple : bool) : history :=
  if is_tuple then HPair [] [] else HList [].

(** Lines 155-159: append the new state to the history.  The history was
    created from the same [is_tuple] flag, so the two mixed cases do not
    occur; Python would fail on them with the errors given. *)
Definition record_state (is_tuple : bool) (all_state : history)
    (state : value) : result history :=
  if is_tuple then
    match all_state with
    | HPair h0 h1 =>
        rbind (getitem state 0) (fun s0 =>
        rbind (getitem state 1) (fun s1 =>
        Ok (HPair (h0 ++ [s0]) (h1 ++ [s1]))))
    | HList _ => Err IndexError
    end
  else
    match all_state with
    | HList h => Ok (HList (h ++ [state]))
    | HPair _ _ => Err AttributeError
    end.

(** Lines 152-159: [for i in range(time_steps)]. *)
Fixpoint rnn_steps (cell : rnn_cell) (inputs : tensor F) (is_tuple : bool)
    (range : list nat) (state : value) (all_outputs : list value)
    (all_state : history) : M (list value * history) :=
  match range with
  | [] => ret (all_outputs, all_state)
  | i :: rest =>
      x <- lift (tensor_getitem inputs i) ;;
      ' (output, state') <- call_cell cell (VTensor x) state ;;
      all_state' <- lift (record_state is_tuple all_state state') ;;
      rnn_steps cell inputs is_tuple rest state'
                (all_outputs ++ [output]) all_state'
  end.

(** Lines 173-184: the state of one batch element, taken from the history
    at its own last valid step, or from the initial state. *)
Definition select_state (is_tuple : bool) (all_state : history)
    (initial_state : value) (batch_idx : nat) (time_idx : Z)
    (final_state : history) : result history :=
  if (0 <? time_idx)%Z then
    if is_tuple then
      match all_state, final_state with
      | HPair a0 a1, HPair f0 f1 =>
          rbind (list_getitem a0 (Z.to_nat (time_idx - 1))) (fun s0 =>
          rbind (getitem s0 batch_idx) (fun r0 =>
          rbind (list_getitem a1 (Z.to_nat (time_idx - 1))) (fun s1 =>
          rbind (getitem s1 batch_idx) (fun r1 =>
          Ok (HPair (f0 ++ [r0]) (f1 ++ [r1]))))))
      | _, _ => Err IndexError
      end
    else
      match all_state, final_state with
      | HList a, HList f =>
          rbind (list_getitem a (Z.to_nat (time_idx - 1))) (fun s =>
          rbind (getitem s batch_idx) (fun r =>
          Ok (HList (f ++ [r]))))
      | _, _ => Err AttributeError
      end
  else
    if is_tuple then
      match final_state with
      | HPair f0 f1 =>
          rbind (getitem initial_state 0) (fun i0 =>
          rbind (getitem i0 batch_idx) (fun r0 =>
          rbind (getitem initial_state 1) (fun i1 =>
          rbind (getitem i1 batch_idx) (fun r1 =>
          Ok (HPair (f0 ++ [r0]) (f1 ++ [r1]))))))
      | HList _ => Err IndexError
      end
    else
      match final_state with
      | HList f =>
          rbind (getitem initial_state batch_idx) (fun r =>
          Ok (HList (f ++ [r])))
      | HPair _ _ => Err AttributeError
      end.

(** Line 172: [for batch_idx, time_idx in enumerate(lengths)]. *)
Fixpoint select_states (is_tuple : bool) (all_state : history)
    (initial_state : value) (batch_idx : nat) (lengths : list Z)
    (final_state : history) : result history :=
  match lengths with
  | [] => Ok final_state
  | time_idx :: rest =>
      rbind (select_state is_tuple all_state initial_state batch_idx
                          time_idx final_state)
            (select_states is_tuple all_state initial_state
                           (S batch_idx) rest)
  end.

(** Lines 186-190: stack the selected rows along the batch axis. *)
Definition stack_final_state (is_tuple : bool) (final_state : history)
    : result value :=
  if is_tuple then
    match final_state with
    | HPair f0 f1 =>
        rbind (torch_stack f0) (fun t0 =>
        rbind (torch_stack f1) (fun t1 =>
        Ok (VTuple [VTensor t0; VTensor t1])))
    | HList _ => Err IndexError
    end
  else
    match final_state with
    | HList f => rbind (torch_stack f) (fun t => Ok (VTensor t))
    | HPair _ _ => Err TypeError
    end.

Definition _dynamic_rnn_loop (cell : rnn_cell) (inputs : tensor F)
    (initial_state : value) (sequence_length : tensor Z)
    : M (tensor F * value) :=
  let state := initial_state in
  time_steps <- lift (size_getitem (shape inputs) 0) ;;
  let is_tuple := is_tuple_value state in
  ' (all_outputs, all_state) <-
      rnn_steps cell inputs is_tuple (seq 0 time_steps) state []
                (empty_history is_tuple) ;;
  final_outputs <- lift (torch_stack all_outputs) ;;
  final_outputs <- lift (mask_sequences final_outputs sequence_length) ;;
  lengths <- lift (tolist sequence_length) ;;
  final_state <- lift (select_states is_tuple all_state initial_state 0
                                     lengths (empty_history is_tuple)) ;;
  final_state <- lift (stack_final_state is_tuple final_state) ;;
  ret (final_outputs, final_state).

(** ** The unroll driver, [dynamic_rnn] *)

(** Lines 93-95: batch-major inputs are permuted to time-major. *)
Definition normalize_inputs (inputs : option value) (time_major : bool)
    : result (option value) :=
  if negb time_major then
    rbind (tensor_attr inputs) (fun t =>
    rbind (permute_1_0_2 t) (fun t' =>
    Ok (Some (VTensor t'))))
  else Ok inputs.

(** Lines 100-114: the sequence-length vector, checked or synthesised.
    A vector given as a Python list is the tensor of the same nesting.
    Both error messages are built with [%] before [ValueError] is raised. *)
Definition materialize_sequence_length (sequence_length : option (tensor Z))
    (time_steps batch_size : nat) : result (tensor Z) :=
  match sequence_length with
  | Some sl =>
      let sl := tensor_map to_int32 sl in
      if negb (Nat.eqb (dim sl) 1) then
        rbind (percent_format_size (shape sl)) (fun _ => Err ValueError)
      else if negb (shape_eqb (shape sl) [batch_size]) then
        rbind (percent_format_size (shape sl)) (fun _ => Err ValueError)
      else Ok sl
  | None => Ok (full_vector time_steps batch_size)
  end.

(** Lines 116-119. *)
Definition materialize_state (cell : rnn_cell) (initial_state : option value)
    (batch_size : nat) : M value :=
  match initial_state with
  | Some s => ret s
  | None => zero_state cell batch_size
  end.

(** Lines 93-119: everything the driver does before it delegates. *)
Definition prepare (cell : rnn_cell) (inputs : option value)
    (sequence_length : option (tensor Z)) (initial_state : option value)
    (time_major : bool) : M (tensor F * tensor Z * value) :=
  inputs <- lift (normalize_inputs inputs time_major) ;;
  t <- lift (tensor_attr inputs) ;;
  time_steps <- lift (size_getitem (shape t) 0) ;;
  batch_size <- lift (size_getitem (shape t) 1) ;;
  sequence_length <-
    lift (materialize_sequence_length sequence_length time_steps batch_size) ;;
  state <- materialize_state cell initial_state batch_size ;;
  ret (t, sequence_length, state).

Definition dynamic_rnn (cell : rnn_cell) (inputs : option value)
    (sequence_length : option (tensor Z)) (initial_state : option value)
    (time_major : bool) : M (tensor F * value) :=
  ' (inputs, sequence_length, state) <-
      prepare cell inputs sequence_length initial_state time_major ;;
  ' (outputs, final_state) <-
      _dynamic_rnn_loop cell inputs state sequence_length ;;
  outputs <- (if negb time_major then lift (permute_1_0_2 outputs)
              else ret outputs) ;;
  ret (outputs, final_state).

(** ** Reference notions used to state the properties *)

(** Items of the leading axis. *)
Definition tensor_items {A} (t : tensor A) : list (tensor A) :=
  match t with
  | Scalar _ => []
  | Nd _ items => items
  end.

(** The states the cell returns when it is driven over the time slices
    [xs] from [state]: entry [k] is the state after consuming [xs[k]]. *)
Fixpoint unroll (cell : rnn_cell) (xs : list (tensor F)) (state : value)
    : result (list value) :=
  match xs with
  | [] => Ok []
  | x :: rest =>
      match cell_call cell with
      | None => Err TypeError
      | Some f =>
          rbind (f (VTensor x) state) (fun os =>
          rbind (unroll cell rest (snd os)) (fun states =>
          Ok (snd os :: states)))
      end
  end.

(** The part of a batched state that belongs to batch element [b]: its
    row, or the rows of the two components the loop keeps of a tuple. *)
Definition element_state (is_tuple : bool) (s : value) (b : nat)
    : result (list value) :=
  if is_tuple then
    rbind (getitem s 0) (fun s0 =>
    rbind (getitem s0 b) (fun r0 =>
    rbind (getitem s 1) (fun s1 =>
    rbind (getitem s1 b) (fun r1 =>
    Ok [r0; r1]))))
  else
    rbind (getitem s b) (fun r => Ok [r]).

(** [cs] are the [c]-th components of [states], one by one. *)
Definition components (c : nat) (states cs : list value) : Prop :=
  Forall2 (fun s r => getitem s c = Ok r) states cs.

(** The history has the layout that goes with the [is_tuple] flag. *)
Definition history_variant (is_tuple : bool) (h : history) : Prop :=
  match is_tuple, h with
  | true, HPair _ _ => True
  | false, HList _ => True
  | _, _ => False
  end.

(** [h'] is [h] with [states] recorded after it. *)
Definition history_extends (is_tuple : bool) (h : history)
    (states : list value) (h' : history) : Prop :=
  if is_tuple then
    exists h0 h1 c0 c1,
      h = HPair h0 h1 /\ h' = HPair (h0 ++ c0) (h1 ++ c1) /\
      components 0 states c0 /\ components 1 states c1
  else
    exists l, h = HList l /\ h' = HList (l ++ states).

Definition history_app (h h' : history) : history :=
  match h, h' with
  | HList a, HList b => HList (a ++ b)
  | HPair a0 a1, HPair b0 b1 => HPair (a0 ++ b0) (a1 ++ b1)
  | _, _ => h
  end.

(** The rows selected for the [j]-th batch element. *)
Definition rows_at (h : history) (j : nat) : option (list value) :=
  match h with
  | HList f =>
      match nth_error f j with
      | Some r => Some [r]
      | None => None
      end
  | HPair f0 f1 =>
      match nth_error f0 j, nth_error f1 j with
      | Some r0, Some r1 => Some [r0; r1]
      | _, _ => None
      end
  end.

(** The state recorded in the step history at step index [k], restricted
    to batch element [b]. *)
Definition history_at (h : history) (k b : nat) : result (list value) :=
  match h with
  | HList a =>
      rbind (list_getitem a k) (fun s =>
      rbind (getitem s b) (fun r => Ok [r]))
  | HPair a0 a1 =>
      rbind (list_getitem a0 k) (fun s0 =>
      rbind (getitem s0 b) (fun r0 =>
      rbind (list_getitem a1 k) (fun s1 =>
      rbind (getitem s1 b) (fun r1 => Ok [r0; r1]))))
  end.

(** Every list of the history has [n] entries. *)
Definition history_length (h : history) (n : nat) : Prop :=
  match h with
  | HList a => length a = n
  | HPair a0 a1 => length a0 = n /\ length a1 = n
  end.

(** The tensor the driver iterates over, after axis normalisation. *)
Definition time_major_inputs (inputs : option value) (time_major : bool)
    : result (tensor F) :=
  rbind (normalize_inputs inputs time_major) tensor_attr.

(** The outputs the cell returns when it is driven over the time slices
    [xs] from [state]: entry [k] is the output for [xs[k]]. *)
Fixpoint unroll_outputs (cell : rnn_cell) (xs : list (tensor F))
    (state : value) : result (list value) :=
  match xs with
  | [] => Ok []
  | x :: rest =>
      match cell_call cell with
      | None => Err TypeError
      | Some f =>
          rbind (f (VTensor x) state) (fun os =>
          rbind (unroll_outputs cell rest (snd os)) (fun outputs =>
          Ok (fst os :: outputs)))
      end
  end.

(** States passed to the step invocations of a trace, in order. *)
Definition call_states (log : list event) : list value :=
  flat_map (fun e => match e with
                     | EvCall _ s => [s]
                     | EvZeroState _ => []
                     end) log.

(** The loop can record [s]: a state recorded for a tuple must have the
    two components the loop reads. *)
Definition recordable (is_tuple : bool) (s : value) : bool :=
  if is_tuple then
    match getitem s 0, getitem s 1 with
    | Ok _, Ok _ => true
    | _, _ => false
    end
  else true.

End Rnn.

Arguments VTensor {F} t.
Arguments VTuple {F} items.
Arguments EvZeroState {F} batch_size.
Arguments EvCall {F} input state.
Arguments HList {F} states.
Arguments HPair {F} first second.
Arguments ret {F A} a.
Arguments raise {F A} e.
Arguments lift {F A} r.
Arguments bind {F A B} m k.
Arguments Build_rnn_cell {F} cell_call cell_zero_state.

(** ** A concrete runtime on integer tensors *)

Fixpoint zeros_like (t : tensor Z) : tensor Z :=
  match t with
  | Scalar _ => Scalar 0%Z
  | Nd inner items => Nd inner (map zeros_like items)
  end.

(** One time slice [row] at time [t]: batch element [b] is kept while
    [t < lengths[b]] and zeroed from then on. *)
Fixpoint mask_slice (t : nat) (lengths : list Z) (row : list (tensor Z))
    : list (tensor Z) :=
  match row, lengths with
  | x :: row', l :: lengths' =>
      (if (Z.of_nat t <? l)%Z then x else zeros_like x)
        :: mask_slice t lengths' row'
  | _, _ => row
  end.

Fixpoint mask_slices (t : nat) (lengths : list Z) (rows : list (tensor Z))
    : list (tensor Z) :=
  match rows with
  | [] => []
  | Nd inner row :: rows' =>
      Nd inner (mask_slice t lengths row) :: mask_slices (S t) lengths rows'
  | Scalar a :: rows' => Scalar a :: mask_slices (S t) lengths rows'
  end.

(** Modelled from the spec: [texar.utils.shapes.mask_sequences] is not part
    of the module under study.  Given a time-major stacked output tensor and
    a sequence-length vector it returns a tensor of identical shape with the
    positions at or beyond each element's valid length set to zero. *)
Definition mask_sequences_spec (sequence : tensor Z)
    (sequence_length : tensor Z) : result (tensor Z) :=
  rbind (tolist sequence_length) (fun lengths =>
  match sequence with
  | Scalar a => Ok (Scalar a)
  | Nd inner rows => Ok (Nd inner (mask_slices 0 lengths rows))
  end).

Fixpoint value_map (f : Z -> Z) (v : value Z) : value Z :=
  match v with
  | VTensor t => VTensor (tensor_map f t)
  | VTuple items => VTuple (map (value_map f) items)
  end.

(** A cell that echoes its input and adds one to every entry of its
    state; [zero_state] is a single [batch_size x 1] tensor of zeros. *)
Definition counting_cell : rnn_cell Z := {|
  cell_call := Some (fun x s => Ok (x, value_map (Z.add 1) s));
  cell_zero_state :=
    Some (fun b => Ok (VTensor (Nd [1] (repeat (Nd [] [Scalar 0%Z]) b))))
|}.

(** The same step as a bare function: callable, but no [zero_state]. *)
Definition bare_function : rnn_cell Z := {|
  cell_call := Some (fun x s => Ok (x, value_map (Z.add 1) s));
  cell_zero_state := None
|}.

(** A [rows x 1] matrix with the given entries. *)
Definition column_matrix (zs : list Z) : tensor Z :=
  Nd [1] (map (fun z => Nd [] [Scalar z]) zs).

(** A vector. *)
Definition vector (zs : list Z) : tensor Z := Nd [] (map Scalar zs).

(** Time-major inputs of shape [3; 2; 1]. *)
Definition inputs_3_2_1 : tensor Z :=
  Nd [2; 1] [column_matrix [11; 21]; column_matrix [12; 22];
             column_matrix [13; 23]]%Z.

(** The same series in batch-major layout, shape [2; 3; 1]. *)
Definition inputs_2_3_1 : tensor Z :=
  Nd [3; 1] [column_matrix [11; 12; 13]; column_matrix [21; 22; 23]]%Z.

(** The counting step, except that it raises once its state has counted
    one step: the second invocation fails. *)
Definition failing_cell : rnn_cell Z := {|
  cell_call :=
    Some (fun x s =>
            match s with
            | VTensor (Nd _ (Nd _ (Scalar 1%Z :: _) :: _)) =>
                Err (OtherError 7)
            | _ => Ok (x, value_map (Z.add 1) s)
            end);
  cell_zero_state :=
    Some (fun b => Ok (VTensor (Nd [1] (repeat (Nd [] [Scalar 0%Z]) b))))
|}.

(** An object with a [zero_state] method that cannot be called. *)
Definition not_callable : rnn_cell Z := {|
  cell_call := None;
  cell_zero_state :=
    Some (fun b => Ok (VTensor (Nd [1] (repeat (Nd [] [Scalar 0%Z]) b))))
|}.

(** The counting step with a pair as output. *)
Definition pair_output_cell : rnn_cell Z := {|
  cell_call := Some (fun x s => Ok (VTuple [x; x], value_map (Z.add 1) s));
  cell_zero_state :=
    Some (fun b => Ok (VTensor (Nd [1] (repeat (Nd [] [Scalar 0%Z]) b))))
|}.

(** The driver on integer tensors with the masking collaborator above. *)
Definition dynamic_rnn_Z := dynamic_rnn mask_sequences_spec.

(** A state of three components, each of shape [2; 1]. *)
Definition triple_state : value Z :=
  VTuple [VTensor (column_matrix [5; 6]%Z);
          VTensor (column_matrix [7; 8]%Z);
          VTensor (column_matrix [9; 10]%Z)].

(** The run used to illustrate the general properties: the batch-major
    series above with sequence lengths [2; 3] and no initial state. *)
Definition example_inputs : option (value Z) := Some (VTensor inputs_2_3_1).

Definition example_lengths : option (tensor Z) := Some (vector [2; 3]%Z).

Definition example_zero_state : value Z := VTensor (column_matrix [0; 0]%Z).

(** The three step invocations of that run. *)
Definition example_calls : list (event Z) :=
  [EvCall (VTensor (column_matrix [11; 21]%Z))
          (VTensor (column_matrix [0; 0]%Z));
   EvCall (VTensor (column_matrix [12; 22]%Z))
          (VTensor (column_matrix [1; 1]%Z));
   EvCall (VTensor (column_matrix [13; 23]%Z))
          (VTensor (column_matrix [2; 2]%Z))].

Definition example_log : list (event Z) := EvZeroState 2 :: example_calls.

(** Its outputs, batch-major and time-major, and its final state. *)
Definition example_outputs : tensor Z :=
  Nd [3; 1] [column_matrix [11; 12; 0]; column_matrix [21; 22; 23]]%Z.

Definition example_outputs_time_major : tensor Z :=
  Nd [2; 1] [column_matrix [11; 21]; column_matrix [12; 22];
             column_matrix [0; 23]]%Z.

Definition example_final_state : value Z := VTensor (column_matrix [2; 3]%Z).


(** * Properties *)

(** ** The driver at concrete inputs *)

(** C2.  A step function outside the cell interface is not rejected: the
    bare function has no [zero_state], yet with a supplied initial state
    the driver runs it over all three time steps and returns normally. *)
Theorem nonconforming_cell_is_run :
  conforms bare_function = false /\
  exists log r,
    dynamic_rnn_Z bare_function (Some (VTensor inputs_2_3_1)) None
                  (Some (VTensor (column_matrix [5; 6]%Z))) false
      = (log, Ok r) /\
    call_count log = 3.
Proof.
  split; [reflexivity|].
  eexists; eexists; split; [vm_compute; reflexivity | reflexivity].
Qed.

(** C3.  Absent inputs surface as [AttributeError] whatever the other
    arguments are, and a series of zero time extent surfaces as
    [RuntimeError] from stacking an empty output list, after the zero
    state has been built; neither is a [ValueError]. *)
Theorem missing_or_empty_inputs_not_value_error :
  (forall (F : Type) (mask : tensor F -> tensor Z -> result (tensor F))
          (cell : rnn_cell F) sl st time_major,
      dynamic_rnn mask cell None sl st time_major = ([], Err AttributeError))
  /\ dynamic_rnn_Z counting_cell (Some (VTensor (Nd [2; 1] []))) None None
                    true
     = ([EvZeroState 2], Err RuntimeError).
Proof.
  split.
  - intros F mask cell sl st [|]; reflexivity.
  - reflexivity.
Qed.

(** C4.  A sequence-length tensor of rank 2 stops the driver before any
    cell event, but with [TypeError]: the message of the intended
    [ValueError] is formatted with the two-entry shape as arguments of a
    single conversion.  A vector of the wrong length does give
    [ValueError]. *)
Theorem rank2_sequence_length_type_error :
  dynamic_rnn_Z counting_cell (Some (VTensor inputs_2_3_1))
                (Some (Nd [2] [vector [2; 3]%Z])) None false
    = ([], Err TypeError)
  /\ dynamic_rnn_Z counting_cell (Some (VTensor inputs_2_3_1))
                    (Some (vector [2; 3; 3]%Z)) None false
     = ([], Err ValueError).
Proof. split; reflexivity. Qed.

(** C6.  With an initial state of three components the cell is driven
    with, and returns, three components at every step, but the final
    state keeps only the first two. *)
Theorem triple_state_final_is_pair :
  exists log outputs t0 t1,
    dynamic_rnn_Z counting_cell (Some (VTensor inputs_2_3_1))
                  (Some (vector [0; 3]%Z)) (Some triple_state) false
      = (log, Ok (outputs, VTuple [t0; t1])).
Proof. do 4 eexists; vm_compute; reflexivity. Qed.

(** C9.  Batch-major inputs of rank 4 or of rank 2 are refused by the
    axis permutation with [RuntimeError] before anything else happens,
    and a tuple of tensors has no [permute] at all. *)
Theorem batch_major_rank_not_3_refused :
  forall (F : Type) (mask : tensor F -> tensor Z -> result (tensor F))
         (cell : rnn_cell F) sl st,
    (forall a b c items,
        dynamic_rnn mask cell (Some (VTensor (Nd [a; b; c] items))) sl st
                    false = ([], Err RuntimeError))
    /\ (forall a items,
        dynamic_rnn mask cell (Some (VTensor (Nd [a] items))) sl st false
          = ([], Err RuntimeError))
    /\ (forall vs,
        dynamic_rnn mask cell (Some (VTuple vs)) sl st false
          = ([], Err AttributeError)).
Proof. intros; repeat split; intros; reflexivity. Qed.

(** ** General properties of the loop and of the driver *)

Section Properties.

Variable F : Type.
Variable mask_sequences : tensor F -> tensor Z -> result (tensor F).

Abbreviation value := (value F).
Abbreviation rnn_cell := (rnn_cell F).
Abbreviation event := (event F).
Abbreviation history := (history F).

(** *** The result and trace monads *)

Lemma rbind_ok_inv {A B} (r : result A) (k : A -> result B) (b : B) :
  rbind r k = Ok b -> exists a, r = Ok a /\ k a = Ok b.
Proof. destruct r as [a|e]; simpl; intros H; [eauto | discriminate]. Qed.

Lemma bind_ok_inv {A B} (m : M F A) (k : A -> M F B) log (b : B) :
  bind m k = (log, Ok b) ->
  exists l1 a l2, m = (l1, Ok a) /\ k a = (l2, Ok b) /\ log = l1 ++ l2.
Proof.
  destruct m as [l1 [a|e]]; simpl; [|discriminate].
  destruct (k a) as [l2 r] eqn:E. intros H. inversion H; subst.
  exists l1, a, l2. auto.
Qed.

Lemma bind_lift_ok {A B} (a : A) (k : A -> M F B) :
  bind (lift (Ok a)) k = k a.
Proof. unfold bind, lift. destruct (k a); reflexivity. Qed.

Lemma bind_lift_err {A B} (e : exn) (k : A -> M F B) :
  bind (lift (Err e)) k = ([], Err e).
Proof. reflexivity. Qed.

Lemma bind_lift_ok_inv {A B} (r : result A) (k : A -> M F B) log (b : B) :
  bind (lift r) k = (log, Ok b) -> exists a, r = Ok a /\ k a = (log, Ok b).
Proof.
  destruct r as [a|e]; [rewrite bind_lift_ok; eauto | discriminate].
Qed.

Lemma bind_ok {A B} l1 (a : A) (k : A -> M F B) :
  bind (l1, Ok a) k = (l1 ++ fst (k a), snd (k a)).
Proof. unfold bind. destruct (k a); reflexivity. Qed.

Lemma bind_err {A B} l1 e (k : A -> M F B) :
  bind (l1, Err e) k = (l1, Err e).
Proof. reflexivity. Qed.

(** *** Traces *)

Lemma call_inputs_app (l1 l2 : list event) :
  call_inputs (l1 ++ l2) = call_inputs l1 ++ call_inputs l2.
Proof. unfold call_inputs. apply flat_map_app. Qed.

Lemma call_count_inputs (log : list event) :
  call_count log = length (call_inputs log).
Proof.
  induction log as [|[b|x s] log IH]; simpl; auto.
  unfold call_count in *. simpl. now rewrite IH.
Qed.

(** *** Lists and tensors *)

Lemma shape_eqb_eq s1 s2 : shape_eqb s1 s2 = true <-> s1 = s2.
Proof.
  revert s2; induction s1 as [|a s1 IH]; intros [|b s2]; simpl;
    try (split; [discriminate | congruence]); [tauto|].
  rewrite andb_true_iff, Nat.eqb_eq, IH. split.
  - intros [-> ->]; reflexivity.
  - intros H; inversion H; auto.
Qed.

Lemma skipn_nth_error_cons {A} (xs : list A) a x :
  nth_error xs a = Some x -> skipn a xs = x :: skipn (S a) xs.
Proof.
  revert a; induction xs as [|y xs IH]; intros [|a]; simpl; try discriminate.
  - intros H; inversion H; reflexivity.
  - intros H. rewrite (IH _ H). reflexivity.
Qed.

Lemma as_tensors_some (vs : list value) ts :
  as_tensors vs = Some ts -> vs = map VTensor ts.
Proof.
  revert ts; induction vs as [|[t|l] vs IH]; simpl; intros ts H.
  - inversion H; reflexivity.
  - destruct (as_tensors vs) as [ts'|]; [|discriminate].
    inversion H; subst. simpl. now rewrite (IH ts').
  - discriminate.
Qed.

Lemma torch_stack_items (vs : list value) t :
  torch_stack vs = Ok t ->
  vs = map VTensor (tensor_items t) /\ vs <> [] /\ exists inner items,
      t = Nd inner items.
Proof.
  unfold torch_stack. destruct (as_tensors vs) as [[|t0 ts]|] eqn:E;
    try discriminate.
  destruct (forallb _ ts); [|discriminate].
  intros H; inversion H; subst; simpl.
  apply as_tensors_some in E. split; [exact E|]. split.
  - rewrite E; discriminate.
  - eauto.
Qed.

(** Indexing a stacked tensor gives back the stacked rows. *)
Lemma torch_stack_getitem (vs : list value) t j r :
  torch_stack vs = Ok t -> nth_error vs j = Some r ->
  getitem (VTensor t) j = Ok r.
Proof.
  intros H Hj. destruct (torch_stack_items _ H) as (Hvs & _ & inner & items & ->).
  simpl in Hvs. subst vs. rewrite nth_error_map in Hj.
  simpl. destruct (nth_error items j); simpl in *; [|discriminate].
  inversion Hj; reflexivity.
Qed.

(** *** The step loop *)

Lemma empty_history_variant it : history_variant it (empty_history F it).
Proof. destruct it; exact I. Qed.

Lemma record_state_extends it (h : history) (s : value) h' :
  record_state it h s = Ok h' -> history_extends it h [s] h'.
Proof.
  unfold record_state, history_extends. destruct it, h; try discriminate.
  - intros H. apply rbind_ok_inv in H as (s0 & E0 & H).
    apply rbind_ok_inv in H as (s1 & E1 & H). inversion H; subst.
    exists first, second, [s0], [s1]. unfold components. auto.
  - intros H; inversion H; subst. eauto.
Qed.

Lemma history_extends_trans it (h : history) s1 h1 s2 h2 :
  history_extends it h s1 h1 -> history_extends it h1 s2 h2 ->
  history_extends it h (s1 ++ s2) h2.
Proof.
  unfold history_extends. destruct it.
  - intros (a0 & a1 & c0 & c1 & -> & -> & C0 & C1)
           (b0 & b1 & d0 & d1 & E & -> & D0 & D1).
    inversion E; subst. exists a0, a1, (c0 ++ d0), (c1 ++ d1).
    rewrite <- !app_assoc. unfold components in *.
    auto using Forall2_app.
  - intros (l & -> & ->) (l' & E & ->). inversion E; subst.
    exists l. now rewrite app_assoc.
Qed.

Lemma history_extends_variant it (h : history) s h' :
  history_extends it h s h' -> history_variant it h'.
Proof.
  unfold history_extends. destruct it.
  - intros (? & ? & ? & ? & _ & -> & _); exact I.
  - intros (? & _ & ->); exact I.
Qed.

(** A completed run of the loop over the time indices [a .. a+n-1], the
    last ones of the series: one invocation per index, on the whole slice
    of that index, and a history that records the states the cell
    returned, in order. *)
Lemma rnn_steps_ok (cell : rnn_cell) inner xs it :
  forall n a state outs hist log outs' hist',
    rnn_steps cell (Nd inner xs) it (seq a n) state outs hist
      = (log, Ok (outs', hist')) ->
    a + n = length xs ->
    history_variant it hist ->
    call_inputs log = map VTensor (skipn a xs) /\
    (forall e, In e log -> is_call e = true) /\
    exists states,
      unroll cell (skipn a xs) state = Ok states /\
      length states = n /\
      history_extends it hist states hist'.
Proof.
  induction n as [|n IH]; intros a state outs hist log outs' hist' H Hlen Hv.
  - simpl in H. inversion H; subst.
    rewrite skipn_all2 by lia. simpl. split; [reflexivity|].
    split; [intros e []|]. exists []. repeat split.
    unfold history_extends. destruct it, hist'; try contradiction.
    + exists first, second, [], []. rewrite !app_nil_r.
      unfold components. auto.
    + exists states. now rewrite app_nil_r.
  - simpl in H.
    apply bind_lift_ok_inv in H as (x & Ex & H).
    simpl in Ex. destruct (nth_error xs a) as [x'|] eqn:Ea; [|discriminate].
    inversion Ex; subst x'.
    apply bind_ok_inv in H as (l1 & [o s'] & l2 & Hc & H & ->).
    unfold call_cell in Hc.
    destruct (cell_call cell) as [f|] eqn:Ef; [|discriminate].
    injection Hc as <- Hf.
    apply bind_lift_ok_inv in H as (h1 & Er & H).
    pose proof (record_state_extends _ _ _ Er) as Hx.
    apply IH in H as (Hin & Hall & states & Hu & Hl & He);
      [|lia|eapply history_extends_variant; eauto].
    rewrite (skipn_nth_error_cons _ _ Ea). cbn [unroll map].
    rewrite Ef, Hf. cbn [rbind snd]. rewrite Hu. cbn [rbind].
    split; [rewrite call_inputs_app, Hin; reflexivity|].
    split; [intros e [<-|Hi]; [reflexivity | auto]|].
    exists (s' :: states). split; [reflexivity|].
    split; [simpl; congruence|].
    change (s' :: states) with ([s'] ++ states).
    eapply history_extends_trans; eassumption.
Qed.

(** *** Final-state selection *)

Ltac rbind_inv H :=
  repeat match type of H with
         | rbind ?r _ = Ok _ =>
             let a := fresh "v" in
             let E := fresh "E" in
             apply rbind_ok_inv in H as (a & E & H)
         end.

(** One pass of the selection loop appends, for one batch element, the
    rows of the history at its last valid step, or of the initial state. *)
Lemma select_state_ok it (hist : history) init b L fin fin' :
  select_state it hist init b L fin = Ok fin' ->
  history_variant it fin ->
  exists new rs,
    fin' = history_app fin new /\ history_variant it new /\
    ((exists r, new = HList [r] /\ rs = [r]) \/
     (exists r0 r1, new = HPair [r0] [r1] /\ rs = [r0; r1])) /\
    ((0 < L)%Z -> history_at hist (Z.to_nat (L - 1)) b = Ok rs) /\
    ((L <= 0)%Z -> element_state it init b = Ok rs).
Proof.
  unfold select_state. intros H Hv.
  destruct (0 <? L)%Z eqn:EL;
    [apply Z.ltb_lt in EL | apply Z.ltb_ge in EL];
    destruct it, fin; try contradiction.
  - destruct hist; [discriminate|]. rbind_inv H. inversion H; subst.
    exists (HPair [v0] [v2]), [v0; v2]. simpl.
    rewrite E, E1. simpl. rewrite E0, E2. simpl.
    repeat split; eauto; try lia.
  - destruct hist; [|discriminate]. rbind_inv H. inversion H; subst.
    exists (HList [v0]), [v0]. simpl. rewrite E. simpl. rewrite E0.
    repeat split; eauto; try lia.
  - rbind_inv H. inversion H; subst.
    exists (HPair [v0] [v2]), [v0; v2]. unfold element_state.
    rewrite E, E1. simpl. rewrite E0, E2. simpl.
    repeat split; eauto; try lia.
  - rbind_inv H. inversion H; subst.
    exists (HList [v]), [v]. unfold element_state. rewrite E. simpl.
    repeat split; eauto; try lia.
Qed.

Lemma history_app_variant it (h h' : history) :
  history_variant it h -> history_variant it h' ->
  history_variant it (history_app h h').
Proof. destruct it, h, h'; simpl; auto. Qed.

Lemma history_app_assoc it (h1 h2 h3 : history) :
  history_variant it h1 -> history_variant it h2 -> history_variant it h3 ->
  history_app (history_app h1 h2) h3 = history_app h1 (history_app h2 h3).
Proof.
  destruct it, h1, h2, h3; simpl; try contradiction; intros _ _ _;
    now rewrite <- ?app_assoc.
Qed.

Lemma rows_at_app_head it (h h' : history) rs :
  history_variant it h -> history_variant it h' ->
  (exists r, h = HList [r] /\ rs = [r]) \/
  (exists r0 r1, h = HPair [r0] [r1] /\ rs = [r0; r1]) ->
  rows_at (history_app h h') 0 = Some rs /\
  forall j, rows_at (history_app h h') (S j) = rows_at h' j.
Proof.
  intros Hv Hv' [(r & -> & ->)|(r0 & r1 & -> & ->)];
    destruct it, h'; simpl in *; try contradiction; auto.
Qed.

(** The whole selection loop, started at batch index [b0]. *)
Lemma select_states_ok it (hist : history) init :
  forall lens b0 fin fin',
    select_states it hist init b0 lens fin = Ok fin' ->
    history_variant it fin ->
    exists new,
      fin' = history_app fin new /\ history_variant it new /\
      forall j L,
        nth_error lens j = Some L ->
        exists rs,
          rows_at new j = Some rs /\
          ((0 < L)%Z ->
           history_at hist (Z.to_nat (L - 1)) (b0 + j) = Ok rs) /\
          ((L <= 0)%Z -> element_state it init (b0 + j) = Ok rs).
Proof.
  induction lens as [|L lens IH]; intros b0 fin fin' H Hv.
  - simpl in H. inversion H; subst.
    exists (empty_history F it). split; [|split].
    + destruct it, fin'; try contradiction; simpl; now rewrite !app_nil_r.
    + apply empty_history_variant.
    + intros [|j] L; discriminate.
  - simpl in H. apply rbind_ok_inv in H as (fin1 & E1 & H).
    apply select_state_ok in E1
      as (new1 & rs1 & -> & Hv1 & R0 & Hpos & Hzero); [|exact Hv].
    apply IH in H as (new2 & -> & Hv2 & Hall);
      [|now apply history_app_variant].
    exists (history_app new1 new2).
    split; [now apply history_app_assoc with it|].
    split; [now apply history_app_variant|].
    destruct (@rows_at_app_head it new1 new2 rs1 Hv1 Hv2 R0) as [Hh Ht].
    intros [|j] L' Hj; simpl in Hj.
    + inversion Hj; subst L'. exists rs1. rewrite Nat.add_0_r. auto.
    + rewrite Ht. replace (b0 + S j) with (S b0 + j) by lia. auto.
Qed.

Lemma stack_final_state_rows it (new : history) fs j rs :
  stack_final_state it new = Ok fs ->
  rows_at new j = Some rs ->
  element_state it fs j = Ok rs.
Proof.
  unfold stack_final_state, element_state.
  destruct it, new; try discriminate; intros H Hr; rbind_inv H;
    inversion H; subst; simpl in Hr.
  - destruct (nth_error first j) as [r0|] eqn:N0; [|discriminate].
    destruct (nth_error second j) as [r1|] eqn:N1; [|discriminate].
    inversion Hr; subst.
    match goal with
    | Ha : torch_stack ?l0 = Ok ?a, Hb : torch_stack ?l1 = Ok ?b,
      Na : nth_error ?l0 _ = _, Nb : nth_error ?l1 _ = _ |- _ =>
        assert (G0 : getitem (VTensor a) j = Ok r0)
          by (eapply torch_stack_getitem; eassumption);
        assert (G1 : getitem (VTensor b) j = Ok r1)
          by (eapply torch_stack_getitem; eassumption);
        change (getitem (VTuple [VTensor a; VTensor b]) 0)
          with (Ok (VTensor a));
        change (getitem (VTuple [VTensor a; VTensor b]) 1)
          with (Ok (VTensor b))
    end.
    cbn [rbind]. rewrite G0. cbn [rbind]. rewrite G1. reflexivity.
  - destruct (nth_error states j) as [r|] eqn:N0; [|discriminate].
    inversion Hr; subst.
    erewrite torch_stack_getitem by eassumption. reflexivity.
Qed.

Lemma components_nth c (states cs : list value) k r :
  components c states cs -> nth_error cs k = Some r ->
  exists s, nth_error states k = Some s /\ getitem s c = Ok r.
Proof.
  intros H; revert k. induction H as [|s r' states cs Hs _ IH];
    intros [|k] Hk; simpl in *; try discriminate.
  - inversion Hk; subst. eauto.
  - auto.
Qed.

(** What the history holds at step [k] is what the cell returned at its
    [k]-th invocation. *)
Lemma history_at_states it states (hist : history) k b rs :
  history_extends it (empty_history F it) states hist ->
  history_at hist k b = Ok rs ->
  exists s, nth_error states k = Some s /\ element_state it s b = Ok rs.
Proof.
  unfold history_extends, element_state. destruct it.
  - intros (h0 & h1 & c0 & c1 & E & -> & C0 & C1) H.
    simpl in E. inversion E; subst h0 h1. simpl in H.
    rbind_inv H. inversion H; subst.
    unfold list_getitem in E0, E2.
    destruct (nth_error c0 k) as [x0|] eqn:N0; [|discriminate].
    destruct (nth_error c1 k) as [x1|] eqn:N1; [|discriminate].
    inversion E0; inversion E2; subst.
    destruct (components_nth _ C0 N0) as (s & Hs & G0).
    destruct (components_nth _ C1 N1) as (s' & Hs' & G1).
    assert (s' = s) by congruence. subst s'.
    exists s. split; [exact Hs|].
    rewrite G0. cbn [rbind]. rewrite E1. cbn [rbind]. rewrite G1.
    cbn [rbind]. now rewrite E3.
  - intros (l & E & ->) H. simpl in E. inversion E; subst l. simpl in H.
    rbind_inv H. inversion H; subst.
    unfold list_getitem in E0.
    destruct (nth_error states k) as [s|] eqn:N; [|discriminate].
    inversion E0; subst. exists v. split; [reflexivity|].
    now rewrite E1.
Qed.

(** *** Inversion of successful runs *)

Lemma loop_ok_inv (cell : rnn_cell) t init sl log outs fs :
  _dynamic_rnn_loop mask_sequences cell t init sl = (log, Ok (outs, fs)) ->
  let it := is_tuple_value init in
  exists inner xs all_outputs all_state o lens fin,
    t = Nd inner xs /\
    rnn_steps cell t it (seq 0 (length xs)) init [] (empty_history F it)
      = (log, Ok (all_outputs, all_state)) /\
    torch_stack all_outputs = Ok o /\
    mask_sequences o sl = Ok outs /\
    tolist sl = Ok lens /\
    select_states it all_state init 0 lens (empty_history F it) = Ok fin /\
    stack_final_state it fin = Ok fs.
Proof.
  intros H it. unfold _dynamic_rnn_loop in H. fold it in H.
  apply bind_lift_ok_inv in H as (T & ET & H).
  destruct t as [a|inner xs]; [discriminate|].
  simpl in ET. inversion ET; subst T.
  apply bind_ok_inv in H as (l1 & [all_outputs all_state] & l2 & Hs & H & ->).
  apply bind_lift_ok_inv in H as (o & Eo & H).
  apply bind_lift_ok_inv in H as (o' & Em & H).
  apply bind_lift_ok_inv in H as (lens & El & H).
  apply bind_lift_ok_inv in H as (fin & Ef & H).
  apply bind_lift_ok_inv in H as (fs' & Es & H).
  inversion H; subst. rewrite app_nil_r.
  exists inner, xs, all_outputs, all_state, o, lens, fin. auto 10.
Qed.

Lemma materialize_state_log (cell : rnn_cell) st B log r :
  materialize_state cell st B = (log, r) -> call_inputs log = [].
Proof.
  unfold materialize_state, zero_state.
  destruct st; [intros H; inversion H; reflexivity|].
  destruct (cell_zero_state cell); intros H; inversion H; reflexivity.
Qed.

Lemma prepare_ok_inv (cell : rnn_cell) inputs sl st tm log t sl' init :
  prepare cell inputs sl st tm = (log, Ok (t, sl', init)) ->
  time_major_inputs inputs tm = Ok t /\
  call_inputs log = [] /\
  exists T B,
    size_getitem (shape t) 0 = Ok T /\
    size_getitem (shape t) 1 = Ok B /\
    materialize_sequence_length sl T B = Ok sl' /\
    materialize_state cell st B = (log, Ok init).
Proof.
  unfold prepare, time_major_inputs. intros H.
  apply bind_lift_ok_inv in H as (i' & Ei & H). rewrite Ei. cbn [rbind].
  apply bind_lift_ok_inv in H as (t' & Et & H).
  apply bind_lift_ok_inv in H as (T & ET & H).
  apply bind_lift_ok_inv in H as (B & EB & H).
  apply bind_lift_ok_inv in H as (sl1 & Es & H).
  apply bind_ok_inv in H as (l1 & s & l2 & Hm & H & ->).
  inversion H; subst. rewrite app_nil_r.
  split; [exact Et|]. split; [eapply materialize_state_log; eauto|].
  exists T, B. auto.
Qed.

Lemma dynamic_rnn_ok_inv (cell : rnn_cell) inputs sl st tm log outs fs :
  dynamic_rnn mask_sequences cell inputs sl st tm = (log, Ok (outs, fs)) ->
  exists log1 log2 t sl' init outs0,
    prepare cell inputs sl st tm = (log1, Ok (t, sl', init)) /\
    _dynamic_rnn_loop mask_sequences cell t init sl'
      = (log2, Ok (outs0, fs)) /\
    log = log1 ++ log2 /\
    (if tm then outs = outs0 else permute_1_0_2 outs0 = Ok outs).
Proof.
  unfold dynamic_rnn. intros H.
  apply bind_ok_inv in H as (l1 & [[t sl'] init] & l2 & Hp & H & ->).
  apply bind_ok_inv in H as (l3 & [outs0 fs0] & l4 & Hl & H & ->).
  exists l1, l3, t, sl', init, outs0.
  destruct tm; simpl in H.
  - inversion H; subst. rewrite app_nil_r. auto.
  - destruct (permute_1_0_2 outs0) as [o'|e]; [|discriminate].
    inversion H; subst. rewrite app_nil_r. auto.
Qed.


(** *** The sequence-length vector *)

Lemma tensor_map_shape {A B} (f : A -> B) (t : tensor A) :
  shape (tensor_map f t) = shape t.
Proof. destruct t; simpl; [reflexivity | now rewrite length_map]. Qed.

Lemma materialize_rank_mismatch (sl : tensor Z) T B :
  dim sl <> 1 ->
  materialize_sequence_length (Some sl) T B = Err TypeError.
Proof.
  intros H. unfold materialize_sequence_length, dim, percent_format_size.
  rewrite tensor_map_shape. unfold dim in H.
  apply Nat.eqb_neq in H. rewrite H. reflexivity.
Qed.

Lemma materialize_length_mismatch (sl : tensor Z) T B :
  dim sl = 1 -> shape sl <> [B] ->
  materialize_sequence_length (Some sl) T B = Err ValueError.
Proof.
  intros H1 H2. unfold materialize_sequence_length, dim, percent_format_size.
  rewrite tensor_map_shape. unfold dim in H1. rewrite H1. simpl.
  destruct (shape_eqb (shape sl) [B]) eqn:E; [|reflexivity].
  apply shape_eqb_eq in E. contradiction.
Qed.

Lemma to_int32_small z :
  (- 2147483648 <= z < 2147483648)%Z -> to_int32 z = z.
Proof. intros H. unfold to_int32. rewrite Z.mod_small; lia. Qed.

Lemma materialize_full_vector T B :
  (Z.of_nat T < 2147483648)%Z ->
  materialize_sequence_length (Some (full_vector T B)) T B
    = Ok (full_vector T B).
Proof.
  intros H. unfold materialize_sequence_length, full_vector, dim.
  cbn [tensor_map shape length Nat.eqb negb].
  rewrite map_repeat. cbn [tensor_map].
  rewrite to_int32_small by lia.
  rewrite repeat_length. cbn [shape_eqb]. rewrite Nat.eqb_refl.
  reflexivity.
Qed.

(** *** Claims about successful runs *)

(** C1.  In every run of [dynamic_rnn] that returns, the final state of
    each batch element [b] with sequence length [L] is, when [L > 0], the
    state the cell returned at step index [L - 1] (entry [L - 1] of the
    states obtained by driving the cell over the time slices from the
    initial state), and, when [L = 0], the initial state; in both cases
    restricted to element [b]. *)
Theorem final_state_is_state_at_last_valid_step
    (cell : rnn_cell) inputs sl st tm log outs fs :
  dynamic_rnn mask_sequences cell inputs sl st tm = (log, Ok (outs, fs)) ->
  exists log1 t lengths init lens states,
    prepare cell inputs sl st tm = (log1, Ok (t, lengths, init)) /\
    tolist lengths = Ok lens /\
    unroll cell (tensor_items t) init = Ok states /\
    forall b L,
      nth_error lens b = Some L ->
      exists rs,
        element_state (is_tuple_value init) fs b = Ok rs /\
        ((0 < L)%Z ->
         exists s, nth_error states (Z.to_nat (L - 1)) = Some s /\
                   element_state (is_tuple_value init) s b = Ok rs) /\
        (L = 0%Z -> element_state (is_tuple_value init) init b = Ok rs).
Proof.
  intros H.
  apply dynamic_rnn_ok_inv in H
    as (log1 & log2 & t & lengths & init & outs0 & Hp & Hl & -> & _).
  apply loop_ok_inv in Hl
    as (inner & xs & aos & ast & o & lens & fin
        & -> & Hs & _ & _ & Htl & Hsel & Hst).
  apply rnn_steps_ok in Hs as (_ & _ & states & Hu & _ & Hext);
    [|reflexivity|apply empty_history_variant].
  apply select_states_ok in Hsel as (new & -> & Hvn & Hrows);
    [|apply empty_history_variant].
  assert (Hnew : history_app (empty_history F (is_tuple_value init)) new
                 = new).
  { destruct (is_tuple_value init), new; simpl in *; tauto. }
  rewrite Hnew in Hst.
  exists log1, (Nd inner xs), lengths, init, lens, states.
  repeat split; auto.
  intros b L Hb. destruct (Hrows b L Hb) as (rs & Hr & Hpos & Hzero).
  exists rs. split; [eapply stack_final_state_rows; eauto|]. split.
  - intros HL. eapply history_at_states; eauto.
  - intros ->. apply Hzero. lia.
Qed.

(** C8.  In every run of [dynamic_rnn] that returns, the cell is invoked
    once per time index, in order, on the whole slice of the series at
    that index; the number of invocations is the time extent, whatever
    the sequence lengths are. *)
Theorem one_invocation_per_time_index
    (cell : rnn_cell) inputs sl st tm log r :
  dynamic_rnn mask_sequences cell inputs sl st tm = (log, Ok r) ->
  exists t,
    time_major_inputs inputs tm = Ok t /\
    call_inputs log = map VTensor (tensor_items t) /\
    size_getitem (shape t) 0 = Ok (call_count log).
Proof.
  destruct r as [outs fs]. intros H.
  apply dynamic_rnn_ok_inv in H
    as (log1 & log2 & t & lengths & init & outs0 & Hp & Hl & -> & _).
  apply prepare_ok_inv in Hp as (Ht & Hlog1 & _).
  apply loop_ok_inv in Hl
    as (inner & xs & aos & ast & o & lens & fin & -> & Hs & _).
  apply rnn_steps_ok in Hs as (Hin & _);
    [|reflexivity|apply empty_history_variant].
  exists (Nd inner xs). split; [exact Ht|].
  assert (Hc : call_inputs (log1 ++ log2) = map VTensor xs)
    by (rewrite call_inputs_app, Hlog1, Hin; reflexivity).
  split; [exact Hc|].
  rewrite call_count_inputs, Hc, length_map. reflexivity.
Qed.

(** C5.  Leaving the sequence-length vector out is the same as passing a
    vector with one entry per batch element, each equal to the time
    extent: the two invocations give the same trace and the same result.
    The time extent is assumed to fit a 32-bit integer, to which a
    supplied vector is converted. *)
Theorem omitted_sequence_length_is_full_length
    (cell : rnn_cell) inputs st tm t T B :
  time_major_inputs inputs tm = Ok t ->
  size_getitem (shape t) 0 = Ok T ->
  size_getitem (shape t) 1 = Ok B ->
  (Z.of_nat T < 2147483648)%Z ->
  dynamic_rnn mask_sequences cell inputs None st tm
    = dynamic_rnn mask_sequences cell inputs (Some (full_vector T B)) st tm.
Proof.
  intros Ht HT HB Hsmall. unfold dynamic_rnn. f_equal.
  unfold prepare. unfold time_major_inputs in Ht.
  destruct (normalize_inputs inputs tm) as [i'|e]; [|discriminate].
  cbn [rbind] in Ht. rewrite !bind_lift_ok, Ht, !bind_lift_ok, HT,
    !bind_lift_ok, HB, !bind_lift_ok.
  rewrite materialize_full_vector by exact Hsmall. reflexivity.
Qed.


(** The variant of the final state: a tensor for a tensor state, a pair
    of tensors for every tuple state. *)
Lemma final_state_variant (cell : rnn_cell) t init sl log outs fs :
  _dynamic_rnn_loop mask_sequences cell t init sl = (log, Ok (outs, fs)) ->
  if is_tuple_value init
  then exists t0 t1, fs = VTuple [VTensor t0; VTensor t1]
  else exists t0, fs = VTensor t0.
Proof.
  intros H. apply loop_ok_inv in H
    as (inner & xs & aos & ast & o & lens & fin & _ & _ & _ & _ & _ & _ & H).
  unfold stack_final_state in H.
  destruct (is_tuple_value init), fin; try discriminate;
    rbind_inv H; inversion H; eauto.
Qed.

(** *** Sequence lengths beyond the time extent *)








Lemma tolist_vector zs : tolist (vector zs) = Ok zs.
Proof.
  unfold tolist, vector. induction zs as [|z zs IH]; simpl; [reflexivity|].
  now rewrite IH.
Qed.

(** Entries that fit 32 bits pass the conversion unchanged. *)
Lemma materialize_vector zs T B :
  length zs = B ->
  Forall (fun z => (- 2147483648 <= z < 2147483648)%Z) zs ->
  materialize_sequence_length (Some (vector zs)) T B = Ok (vector zs).
Proof.
  intros Hlen Hall.
  assert (E : tensor_map to_int32 (vector zs) = vector zs).
  { unfold vector. cbn [tensor_map]. f_equal. clear Hlen.
    induction Hall as [|z zs Hz _ IH]; cbn [map tensor_map];
      [reflexivity|].
    rewrite IH, to_int32_small by exact Hz. reflexivity. }
  unfold materialize_sequence_length. rewrite E.
  unfold vector, dim. cbn [shape length Nat.eqb negb shape_eqb].
  rewrite length_map, Hlen, Nat.eqb_refl. reflexivity.
Qed.





(** ** Further properties of the loop and of the driver *)

(** *** Outputs and state threading *)

Lemma call_states_app (l1 l2 : list event) :
  call_states (l1 ++ l2) = call_states l1 ++ call_states l2.
Proof. unfold call_states. apply flat_map_app. Qed.

(** A completed run of the loop appends the outputs of the cell, in time
    order, and hands every invocation the state the previous one
    returned. *)
Lemma rnn_steps_outputs (cell : rnn_cell) inner xs it :
  forall n a state outs hist log outs' hist',
    rnn_steps cell (Nd inner xs) it (seq a n) state outs hist
      = (log, Ok (outs', hist')) ->
    a + n = length xs ->
    exists ys states,
      unroll_outputs cell (skipn a xs) state = Ok ys /\
      outs' = outs ++ ys /\ length ys = n /\
      unroll cell (skipn a xs) state = Ok states /\
      call_states log = removelast (state :: states).
Proof.
  induction n as [|n IH]; intros a state outs hist log outs' hist' H Hlen.
  - simpl in H. inversion H; subst.
    rewrite skipn_all2 by lia. exists [], []. simpl.
    now rewrite app_nil_r.
  - simpl in H.
    apply bind_lift_ok_inv in H as (x & Ex & H).
    simpl in Ex. destruct (nth_error xs a) as [x'|] eqn:Ea; [|discriminate].
    inversion Ex; subst x'.
    apply bind_ok_inv in H as (l1 & [o s'] & l2 & Hc & H & ->).
    unfold call_cell in Hc.
    destruct (cell_call cell) as [f|] eqn:Ef; [|discriminate].
    injection Hc as <- Hf.
    apply bind_lift_ok_inv in H as (h1 & Er & H).
    apply IH in H as (ys & states & Hy & -> & Hl & Hu & Hcs); [|lia].
    rewrite (skipn_nth_error_cons _ _ Ea). cbn [unroll unroll_outputs].
    rewrite Ef, Hf. cbn [rbind snd fst]. rewrite Hy, Hu. cbn [rbind].
    exists (o :: ys), (s' :: states).
    split; [reflexivity|]. split; [now rewrite <- app_assoc|].
    split; [simpl; congruence|]. split; [reflexivity|].
    rewrite call_states_app, Hcs. reflexivity.
Qed.


Lemma materialize_state_call_states (cell : rnn_cell) st B log r :
  materialize_state cell st B = (log, r) -> call_states log = [].
Proof.
  unfold materialize_state, zero_state.
  destruct st; [intros H; inversion H; reflexivity|].
  destruct (cell_zero_state cell); intros H; inversion H; reflexivity.
Qed.

(** X1.  In every run that returns, the outputs are the outputs of the
    cell for the successive time slices, stacked along the time axis and
    masked with the sequence lengths; in batch-major mode the masked
    tensor is then permuted back. *)
Theorem outputs_are_masked_stack_of_cell_outputs
    (cell : rnn_cell) inputs sl st tm log outs fs :
  dynamic_rnn mask_sequences cell inputs sl st tm = (log, Ok (outs, fs)) ->
  exists log1 t lengths init ys o o',
    prepare cell inputs sl st tm = (log1, Ok (t, lengths, init)) /\
    unroll_outputs cell (tensor_items t) init = Ok ys /\
    length ys = length (tensor_items t) /\
    torch_stack ys = Ok o /\
    mask_sequences o lengths = Ok o' /\
    (if tm then outs = o' else permute_1_0_2 o' = Ok outs).
Proof.
  intros H.
  apply dynamic_rnn_ok_inv in H
    as (log1 & log2 & t & lengths & init & outs0 & Hp & Hl & -> & Ho).
  apply loop_ok_inv in Hl
    as (inner & xs & aos & ast & o & lens & fin
        & -> & Hs & Hst & Hm & _).
  apply rnn_steps_outputs in Hs as (ys & states & Hy & -> & Hlen & _);
    [|reflexivity].
  exists log1, (Nd inner xs), lengths, init, ys, o, outs0.
  simpl in Hst. auto 10.
Qed.

(** X2.  In every run that returns, the first invocation of the cell
    receives the initial state and every later one receives the state
    returned by the invocation before it. *)
Theorem each_step_receives_previous_state
    (cell : rnn_cell) inputs sl st tm log r :
  dynamic_rnn mask_sequences cell inputs sl st tm = (log, Ok r) ->
  exists log1 t lengths init states,
    prepare cell inputs sl st tm = (log1, Ok (t, lengths, init)) /\
    unroll cell (tensor_items t) init = Ok states /\
    call_states log = removelast (init :: states).
Proof.
  destruct r as [outs fs]. intros H.
  apply dynamic_rnn_ok_inv in H
    as (log1 & log2 & t & lengths & init & outs0 & Hp & Hl & -> & _).
  apply loop_ok_inv in Hl
    as (inner & xs & aos & ast & o & lens & fin & -> & Hs & _).
  apply rnn_steps_outputs in Hs as (ys & states & _ & _ & _ & Hu & Hcs);
    [|reflexivity].
  exists log1, (Nd inner xs), lengths, init, states.
  split; [exact Hp|]. split; [exact Hu|].
  apply prepare_ok_inv in Hp as (_ & _ & T & B & _ & _ & _ & Hms).
  apply materialize_state_call_states in Hms.
  rewrite call_states_app, Hms, Hcs. reflexivity.
Qed.


(** *** Forward computation of the driver *)

Lemma prepare_after_inputs (cell : rnn_cell) inputs sl st tm t T B :
  time_major_inputs inputs tm = Ok t ->
  size_getitem (shape t) 0 = Ok T ->
  size_getitem (shape t) 1 = Ok B ->
  prepare cell inputs sl st tm
    = bind (lift (materialize_sequence_length sl T B)) (fun sl' =>
      bind (materialize_state cell st B) (fun state =>
      ret (t, sl', state))).
Proof.
  intros Ht HT HB. unfold prepare. unfold time_major_inputs in Ht.
  destruct (normalize_inputs inputs tm) as [i'|e]; [|discriminate].
  cbn [rbind] in Ht.
  now rewrite !bind_lift_ok, Ht, !bind_lift_ok, HT, !bind_lift_ok, HB,
    !bind_lift_ok.
Qed.

Lemma dynamic_rnn_prepare_err (cell : rnn_cell) inputs sl st tm l1 e :
  prepare cell inputs sl st tm = (l1, Err e) ->
  dynamic_rnn mask_sequences cell inputs sl st tm = (l1, Err e).
Proof. intros H. unfold dynamic_rnn. now rewrite H, bind_err. Qed.

Lemma dynamic_rnn_loop_err (cell : rnn_cell) inputs sl st tm
      l1 t sl' init l2 e :
  prepare cell inputs sl st tm = (l1, Ok (t, sl', init)) ->
  _dynamic_rnn_loop mask_sequences cell t init sl' = (l2, Err e) ->
  dynamic_rnn mask_sequences cell inputs sl st tm = (l1 ++ l2, Err e).
Proof.
  intros Hp Hl. unfold dynamic_rnn. rewrite Hp, bind_ok. cbv beta iota.
  now rewrite Hl, bind_err.
Qed.

Lemma loop_after_steps (cell : rnn_cell) inner xs init lengths
      log2 outs hist o o' lens :
  rnn_steps cell (Nd inner xs) (is_tuple_value init) (seq 0 (length xs))
            init [] (empty_history F (is_tuple_value init))
    = (log2, Ok (outs, hist)) ->
  torch_stack outs = Ok o ->
  mask_sequences o lengths = Ok o' ->
  tolist lengths = Ok lens ->
  _dynamic_rnn_loop mask_sequences cell (Nd inner xs) init lengths
    = (log2,
       rbind (select_states (is_tuple_value init) hist init 0 lens
                            (empty_history F (is_tuple_value init)))
             (fun fin =>
              rbind (stack_final_state (is_tuple_value init) fin)
                    (fun fs => Ok (o', fs)))).
Proof.
  intros Hs Ho Hm Htl. unfold _dynamic_rnn_loop.
  cbn [shape size_getitem nth_error].
  rewrite bind_lift_ok, Hs, bind_ok. cbv beta iota.
  rewrite Ho, bind_lift_ok, Hm, bind_lift_ok, Htl, bind_lift_ok.
  destruct (select_states _ _ _ _ _ _) as [fin|e].
  - rewrite bind_lift_ok. cbn [rbind].
    destruct (stack_final_state _ fin) as [fs|e]; cbn [rbind].
    + rewrite bind_lift_ok. cbn [ret fst snd]. now rewrite app_nil_r.
    + rewrite bind_lift_err. cbn [fst snd]. now rewrite app_nil_r.
  - rewrite bind_lift_err. cbn [fst snd rbind]. now rewrite app_nil_r.
Qed.

(** *** Argument validation *)

(** X3.  A supplied sequence-length vector that is one-dimensional but
    whose length is not the batch size makes the driver raise
    [ValueError] before the zero state is built and before the cell is
    invoked. *)
Theorem wrong_length_vector_raises_value_error
    (cell : rnn_cell) inputs (sl : tensor Z) st tm t T B :
  time_major_inputs inputs tm = Ok t ->
  size_getitem (shape t) 0 = Ok T ->
  size_getitem (shape t) 1 = Ok B ->
  dim sl = 1 -> shape sl <> [B] ->
  dynamic_rnn mask_sequences cell inputs (Some sl) st tm
    = ([], Err ValueError).
Proof.
  intros Ht HT HB Hd Hs. apply dynamic_rnn_prepare_err.
  rewrite (prepare_after_inputs cell inputs (Some sl) st tm Ht HT HB).
  now rewrite materialize_length_mismatch by assumption.
Qed.

(** X4.  A supplied sequence length that is not one-dimensional stops
    the driver before the zero state is built and before the cell is
    invoked; the exception is the [TypeError] of the message formatting,
    for every rank other than 1. *)
Theorem wrong_rank_sequence_length_raises_type_error
    (cell : rnn_cell) inputs (sl : tensor Z) st tm t T B :
  time_major_inputs inputs tm = Ok t ->
  size_getitem (shape t) 0 = Ok T ->
  size_getitem (shape t) 1 = Ok B ->
  dim sl <> 1 ->
  dynamic_rnn mask_sequences cell inputs (Some sl) st tm
    = ([], Err TypeError).
Proof.
  intros Ht HT HB Hd. apply dynamic_rnn_prepare_err.
  rewrite (prepare_after_inputs cell inputs (Some sl) st tm Ht HT HB).
  now rewrite materialize_rank_mismatch by assumption.
Qed.

(** X5.  Without an initial state, a cell that has no [zero_state]
    method makes the driver raise [AttributeError] once the other
    arguments have been accepted; the cell is not invoked. *)
Theorem missing_zero_state_raises_attribute_error
    (cell : rnn_cell) inputs sl tm t T B lengths :
  time_major_inputs inputs tm = Ok t ->
  size_getitem (shape t) 0 = Ok T ->
  size_getitem (shape t) 1 = Ok B ->
  materialize_sequence_length sl T B = Ok lengths ->
  cell_zero_state cell = None ->
  dynamic_rnn mask_sequences cell inputs sl None tm
    = ([], Err AttributeError).
Proof.
  intros Ht HT HB Hm Hz. apply dynamic_rnn_prepare_err.
  rewrite (prepare_after_inputs cell inputs sl None tm Ht HT HB).
  rewrite Hm, bind_lift_ok. unfold materialize_state, zero_state.
  now rewrite Hz.
Qed.


(** *** The zero state and the cell object *)

(** X6.  Without an initial state, a run that returns asked the cell for
    its zero state exactly once, for the batch size read from the inputs,
    and before the first step; everything after it in the trace is a step
    invocation. *)
Theorem zero_state_built_once_before_steps
    (cell : rnn_cell) inputs sl tm log r :
  dynamic_rnn mask_sequences cell inputs sl None tm = (log, Ok r) ->
  exists t B calls,
    time_major_inputs inputs tm = Ok t /\
    size_getitem (shape t) 1 = Ok B /\
    log = EvZeroState B :: calls /\
    forall e, In e calls -> is_call e = true.
Proof.
  destruct r as [outs fs]. intros H.
  apply dynamic_rnn_ok_inv in H
    as (log1 & log2 & t & lengths & init & outs0 & Hp & Hl & -> & _).
  apply prepare_ok_inv in Hp as (Ht & _ & T & B & _ & HB & _ & Hms).
  apply loop_ok_inv in Hl
    as (inner & xs & aos & ast & o & lens & fin & -> & Hs & _).
  apply rnn_steps_ok in Hs as (_ & Hall & _);
    [|reflexivity|apply empty_history_variant].
  unfold materialize_state, zero_state in Hms.
  destruct (cell_zero_state cell) as [z|]; [|discriminate].
  injection Hms as <- _.
  exists (Nd inner xs), B, log2. auto.
Qed.

Lemma rnn_steps_same_call (c1 c2 : rnn_cell) t it :
  cell_call c1 = cell_call c2 ->
  forall range state outs hist,
    rnn_steps c1 t it range state outs hist
      = rnn_steps c2 t it range state outs hist.
Proof.
  intros Hc. induction range as [|i range IH]; intros state outs hist.
  - reflexivity.
  - cbn [rnn_steps]. destruct (tensor_getitem t i) as [x|e];
      [|reflexivity].
    rewrite !bind_lift_ok. unfold call_cell. rewrite Hc.
    destruct (cell_call c2) as [f|]; [|reflexivity].
    destruct (f (VTensor x) state) as [[o s']|e]; [|reflexivity].
    rewrite !bind_ok. cbv beta iota.
    destruct (record_state it hist s') as [h|e]; [|reflexivity].
    rewrite !bind_lift_ok. now rewrite IH.
Qed.

Lemma loop_same_call (c1 c2 : rnn_cell) t init sl :
  cell_call c1 = cell_call c2 ->
  _dynamic_rnn_loop mask_sequences c1 t init sl
    = _dynamic_rnn_loop mask_sequences c2 t init sl.
Proof.
  intros Hc. unfold _dynamic_rnn_loop.
  destruct (size_getitem (shape t) 0) as [T|e]; [|reflexivity].
  rewrite !bind_lift_ok. now rewrite (rnn_steps_same_call c1 c2 t _ Hc).
Qed.

(** X7.  With a supplied initial state the driver never consults
    [zero_state]: two cells with the same step function give the same
    trace and the same result, whatever their [zero_state] is or whether
    they have one. *)
Theorem supplied_state_ignores_zero_state
    (c1 c2 : rnn_cell) inputs sl (s : value) tm :
  cell_call c1 = cell_call c2 ->
  dynamic_rnn mask_sequences c1 inputs sl (Some s) tm
    = dynamic_rnn mask_sequences c2 inputs sl (Some s) tm.
Proof.
  intros Hc. unfold dynamic_rnn.
  change (prepare c1 inputs sl (Some s) tm)
    with (prepare c2 inputs sl (Some s) tm).
  destruct (prepare c2 inputs sl (Some s) tm) as [l [[[t sl'] init]|e]];
    [|reflexivity].
  rewrite !bind_ok. cbv beta iota.
  now rewrite (loop_same_call c1 c2 t init sl' Hc).
Qed.

(** X8.  An object that cannot be called fails only at the first step:
    once the arguments are accepted and the zero state, if needed, has
    been built, a series with at least one time step ends in [TypeError]
    and no step invocation is recorded. *)
Theorem not_callable_fails_at_first_step
    (cell : rnn_cell) inputs sl st tm log1 t lengths init n :
  prepare cell inputs sl st tm = (log1, Ok (t, lengths, init)) ->
  size_getitem (shape t) 0 = Ok (S n) ->
  cell_call cell = None ->
  dynamic_rnn mask_sequences cell inputs sl st tm = (log1, Err TypeError)
  /\ call_count log1 = 0.
Proof.
  intros Hp HT Hc. split.
  - rewrite <- (app_nil_r log1). eapply dynamic_rnn_loop_err; [exact Hp|].
    unfold _dynamic_rnn_loop. rewrite HT, bind_lift_ok.
    destruct t as [a|inner xs]; [discriminate|].
    simpl in HT. injection HT as HT.
    destruct xs as [|x xs]; [discriminate|].
    cbn [seq rnn_steps tensor_getitem nth_error].
    rewrite bind_lift_ok. unfold call_cell. rewrite Hc. reflexivity.
  - apply prepare_ok_inv in Hp as (_ & Hl & _).
    now rewrite call_count_inputs, Hl.
Qed.

(** *** Empty series and empty batches *)

(** X9.  A series with no time step is not rejected by the driver: the
    arguments are accepted, the zero state is built if needed, the loop
    runs zero times and stacking the empty list of outputs raises
    [RuntimeError]; the cell is never invoked. *)
Theorem zero_time_extent_raises_runtime_error
    (cell : rnn_cell) inputs sl st tm log1 t lengths init :
  prepare cell inputs sl st tm = (log1, Ok (t, lengths, init)) ->
  size_getitem (shape t) 0 = Ok 0 ->
  dynamic_rnn mask_sequences cell inputs sl st tm
    = (log1, Err RuntimeError)
  /\ call_count log1 = 0.
Proof.
  intros Hp HT. split.
  - rewrite <- (app_nil_r log1). eapply dynamic_rnn_loop_err; [exact Hp|].
    unfold _dynamic_rnn_loop. rewrite HT, bind_lift_ok. reflexivity.
  - apply prepare_ok_inv in Hp as (_ & Hl & _).
    now rewrite call_count_inputs, Hl.
Qed.

Lemma materialize_ok_shape sl T B lengths :
  materialize_sequence_length sl T B = Ok lengths -> shape lengths = [B].
Proof.
  unfold materialize_sequence_length. destruct sl as [sl|].
  - destruct (negb (dim (tensor_map to_int32 sl) =? 1)).
    + destruct (percent_format_size _); discriminate.
    + destruct (shape_eqb (shape (tensor_map to_int32 sl)) [B]) eqn:E;
        cbn [negb].
      * intros H; inversion H; subst. now apply shape_eqb_eq.
      * destruct (percent_format_size _); discriminate.
  - intros H; inversion H; subst. unfold full_vector. simpl.
    now rewrite repeat_length.
Qed.

Lemma scalars_length items lens :
  scalars items = Ok lens -> length lens = length items.
Proof.
  revert lens; induction items as [|[z|inner its] items IH]; simpl;
    intros lens H; try discriminate.
  - inversion H; reflexivity.
  - apply rbind_ok_inv in H as (zs & E & H). inversion H; subst.
    simpl. now rewrite (IH zs E).
Qed.

Lemma tolist_length t lens B :
  tolist t = Ok lens -> shape t = [B] -> length lens = B.
Proof.
  destruct t as [a|inner items]; simpl; [discriminate|].
  intros H Hs. inversion Hs; subst. now apply scalars_length.
Qed.

(** X10.  With an empty batch the whole series is still computed: when
    the step loop, the stacking of the outputs and the masking complete,
    the run ends in [RuntimeError], raised by stacking the empty list of
    selected states. *)
Theorem empty_batch_raises_runtime_error
    (cell : rnn_cell) inputs sl st tm
    log1 t lengths init T log2 outs hist o o' :
  prepare cell inputs sl st tm = (log1, Ok (t, lengths, init)) ->
  size_getitem (shape t) 0 = Ok T ->
  size_getitem (shape t) 1 = Ok 0 ->
  rnn_steps cell t (is_tuple_value init) (seq 0 T) init []
            (empty_history F (is_tuple_value init))
    = (log2, Ok (outs, hist)) ->
  torch_stack outs = Ok o ->
  mask_sequences o lengths = Ok o' ->
  dynamic_rnn mask_sequences cell inputs sl st tm
    = (log1 ++ log2, Err RuntimeError)
  /\ call_count (log1 ++ log2) = T.
Proof.
  intros Hp HT HB Hs Ho Hm.
  pose proof Hp as Hp'.
  apply prepare_ok_inv in Hp' as (_ & Hl1 & T' & B' & _ & HB' & Hms & _).
  rewrite HB in HB'. injection HB' as <-.
  apply materialize_ok_shape in Hms.
  destruct lengths as [a|li items]; [discriminate|].
  simpl in Hms. injection Hms as Hlen ->.
  destruct items; [|discriminate].
  destruct t as [a|inner xs]; [discriminate|].
  simpl in HT. injection HT as <-.
  split.
  - eapply dynamic_rnn_loop_err; [exact Hp|].
    rewrite (loop_after_steps cell inner xs init Hs Ho Hm
               (lens := []) eq_refl).
    cbn [select_states rbind].
    destruct (is_tuple_value init); reflexivity.
  - apply rnn_steps_ok in Hs as (Hci & _);
      [|reflexivity|apply empty_history_variant].
    rewrite call_count_inputs, call_inputs_app, Hl1, Hci.
    simpl. now rewrite length_map.
Qed.


(** *** Errors raised by the cell *)

Lemma last_cons_default {A} (a d : A) l : last (a :: l) d = last l a.
Proof.
  revert a d; induction l as [|b l IH]; intros a d; [reflexivity|].
  change (last (a :: b :: l) d) with (last (b :: l) d).
  now rewrite (IH b d), (IH b a).
Qed.

Lemma record_state_recordable it (hist : history) (s : value) :
  history_variant it hist -> recordable it s = true ->
  exists h, record_state it hist s = Ok h /\ history_variant it h.
Proof.
  unfold record_state, recordable. destruct it, hist; try contradiction;
    intros _ H.
  - destruct (getitem s 0) as [s0|]; [|discriminate].
    destruct (getitem s 1) as [s1|]; [|discriminate].
    cbn [rbind]. eexists; split; [reflexivity | exact I].
  - eexists; split; [reflexivity | exact I].
Qed.

(** The loop stops at the first invocation that raises, with the
    exception the cell raised. *)
Lemma rnn_steps_cell_error (cell : rnn_cell) inner xs it f e :
  cell_call cell = Some f ->
  forall k n a state outs hist states x,
    a + n = length xs -> k < n ->
    unroll cell (firstn k (skipn a xs)) state = Ok states ->
    forallb (recordable it) states = true ->
    history_variant it hist ->
    nth_error xs (a + k) = Some x ->
    f (VTensor x) (last states state) = Err e ->
    exists log,
      rnn_steps cell (Nd inner xs) it (seq a n) state outs hist
        = (log, Err e) /\
      call_count log = S k.
Proof.
  intros Hc. induction k as [|k IH];
    intros n a state outs hist states x Hlen Hk Hu Hr Hv Hx Hf;
    destruct n as [|n]; try lia; cbn [seq rnn_steps tensor_getitem].
  - rewrite Nat.add_0_r in Hx. rewrite Hx, bind_lift_ok.
    simpl in Hu. inversion Hu; subst states. simpl in Hf.
    unfold call_cell. rewrite Hc, Hf.
    eexists; split; [reflexivity | reflexivity].
  - destruct (nth_error xs a) as [x0|] eqn:Ea;
      [|apply nth_error_None in Ea; lia].
    rewrite bind_lift_ok.
    rewrite (skipn_nth_error_cons _ _ Ea) in Hu. cbn [firstn unroll] in Hu.
    rewrite Hc in Hu.
    destruct (f (VTensor x0) state) as [[o s']|e0] eqn:Ef; [|discriminate].
    cbn [rbind snd] in Hu.
    apply rbind_ok_inv in Hu as (states' & Hu' & Hu). inversion Hu; subst.
    cbn [forallb] in Hr. apply andb_true_iff in Hr as [Hr0 Hr].
    rewrite last_cons_default in Hf.
    destruct (@record_state_recordable it hist s' Hv Hr0)
      as (h1 & Hrec & Hv1).
    destruct (IH n (S a) s' (outs ++ [o]) h1 states' x) as (log & Hs & Hn);
      auto; try lia.
    { now replace (S a + k) with (a + S k) by lia. }
    unfold call_cell. rewrite Hc, Ef, bind_ok. cbv beta iota.
    rewrite Hrec, bind_lift_ok, Hs. cbn [fst snd].
    eexists; split; [reflexivity|].
    unfold call_count in *. simpl. now rewrite Hn.
Qed.

(** X11.  An exception raised by the cell is not caught: when the cell
    has returned for the first [k] time slices and raises [e] on slice
    [k], the driver ends in [e] after exactly [k + 1] invocations. *)
Theorem cell_error_propagates
    (cell : rnn_cell) inputs sl st tm log1 t lengths init f k states x e :
  prepare cell inputs sl st tm = (log1, Ok (t, lengths, init)) ->
  cell_call cell = Some f ->
  unroll cell (firstn k (tensor_items t)) init = Ok states ->
  forallb (recordable (is_tuple_value init)) states = true ->
  nth_error (tensor_items t) k = Some x ->
  f (VTensor x) (last states init) = Err e ->
  exists log2,
    dynamic_rnn mask_sequences cell inputs sl st tm = (log1 ++ log2, Err e)
    /\ call_count log2 = S k.
Proof.
  intros Hp Hc Hu Hr Hx Hf.
  destruct t as [a|inner xs]; [destruct k; discriminate|].
  cbn [tensor_items] in Hu, Hx.
  assert (Hk : k < length xs)
    by (apply nth_error_Some; rewrite Hx; discriminate).
  destruct (@rnn_steps_cell_error cell inner xs (is_tuple_value init) f e Hc
              k (length xs) 0 init [] (empty_history F (is_tuple_value init))
              states x) as (log2 & Hs & Hn); auto.
  { apply empty_history_variant. }
  exists log2. split; [|exact Hn].
  eapply dynamic_rnn_loop_err; [exact Hp|].
  unfold _dynamic_rnn_loop. cbn [shape size_getitem nth_error].
  now rewrite bind_lift_ok, Hs, bind_err.
Qed.


(** *** Shape of the final state *)

Lemma history_app_length it (h h' : history) n m :
  history_variant it h -> history_variant it h' ->
  history_length h n -> history_length h' m ->
  history_length (history_app h h') (n + m).
Proof.
  destruct it, h, h'; simpl; try contradiction; intros _ _.
  - intros [H1 H2] [H3 H4]. rewrite !length_app. lia.
  - intros H1 H2. rewrite length_app. lia.
Qed.

(** The selection loop appends one row per sequence-length entry. *)
Lemma select_states_length it (hist : history) init :
  forall lens b0 fin fin' n,
    select_states it hist init b0 lens fin = Ok fin' ->
    history_variant it fin -> history_length fin n ->
    history_length fin' (n + length lens).
Proof.
  induction lens as [|L lens IH]; intros b0 fin fin' n H Hv Hn.
  - simpl in H. inversion H; subst. now rewrite Nat.add_0_r.
  - simpl in H. apply rbind_ok_inv in H as (fin1 & E1 & H).
    apply select_state_ok in E1
      as (new1 & rs1 & -> & Hv1 & R0 & _); [|exact Hv].
    assert (H1 : history_length new1 1).
    { destruct R0 as [(r & -> & _)|(r0 & r1 & -> & _)]; simpl; auto. }
    eapply (IH _ _ _ (n + 1)) in H.
    + simpl. now replace (n + S (length lens)) with (n + 1 + length lens)
        by lia.
    + now apply history_app_variant.
    + now apply history_app_length with it.
Qed.

Lemma empty_history_length it : history_length (empty_history F it) 0.
Proof. destruct it; simpl; auto. Qed.

Lemma torch_stack_extent (vs : list value) t :
  torch_stack vs = Ok t -> size_getitem (shape t) 0 = Ok (length vs).
Proof.
  intros H. destruct (torch_stack_items _ H) as (Hvs & _ & inner & items & ->).
  simpl in Hvs. subst vs. simpl. now rewrite length_map.
Qed.

(** X12.  In every run that returns, the final state is a single tensor
    when the initial state is a tensor and a pair of tensors when the
    initial state is a tuple, and each of these tensors has one row per
    batch element. *)
Theorem final_state_variant_and_batch_extent
    (cell : rnn_cell) inputs sl st tm log outs fs :
  dynamic_rnn mask_sequences cell inputs sl st tm = (log, Ok (outs, fs)) ->
  exists log1 t lengths init B,
    prepare cell inputs sl st tm = (log1, Ok (t, lengths, init)) /\
    size_getitem (shape t) 1 = Ok B /\
    if is_tuple_value init
    then exists t0 t1,
        fs = VTuple [VTensor t0; VTensor t1] /\
        size_getitem (shape t0) 0 = Ok B /\
        size_getitem (shape t1) 0 = Ok B
    else exists t0,
        fs = VTensor t0 /\ size_getitem (shape t0) 0 = Ok B.
Proof.
  intros H.
  apply dynamic_rnn_ok_inv in H
    as (log1 & log2 & t & lengths & init & outs0 & Hp & Hl & -> & _).
  pose proof Hp as Hp'.
  apply prepare_ok_inv in Hp' as (_ & _ & T & B & _ & HB & Hms & _).
  apply materialize_ok_shape in Hms.
  apply loop_ok_inv in Hl
    as (inner & xs & aos & ast & o & lens & fin
        & -> & _ & _ & _ & Htl & Hsel & Hst).
  pose proof (tolist_length _ Htl Hms) as Hlen.
  eapply select_states_length in Hsel;
    [|apply empty_history_variant|apply empty_history_length].
  simpl in Hsel. rewrite Hlen in Hsel.
  exists log1, (Nd inner xs), lengths, init, B.
  split; [exact Hp|]. split; [exact HB|].
  unfold stack_final_state in Hst.
  destruct (is_tuple_value init), fin; try discriminate;
    rbind_inv Hst; inversion Hst; subst; simpl in Hsel.
  - destruct Hsel as [H0 H1]. do 2 eexists. split; [reflexivity|].
    split; erewrite torch_stack_extent by eassumption; congruence.
  - eexists. split; [reflexivity|].
    erewrite torch_stack_extent by eassumption; congruence.
Qed.


(** *** Final state and sequence lengths *)

(** The rows of the final state, for every sequence-length entry,
    positive or not. *)
Lemma final_state_rows (cell : rnn_cell) inputs sl st tm log outs fs :
  dynamic_rnn mask_sequences cell inputs sl st tm = (log, Ok (outs, fs)) ->
  exists log1 t lengths init lens states,
    prepare cell inputs sl st tm = (log1, Ok (t, lengths, init)) /\
    tolist lengths = Ok lens /\
    unroll cell (tensor_items t) init = Ok states /\
    length states = length (tensor_items t) /\
    0 < length (tensor_items t) /\
    forall b L,
      nth_error lens b = Some L ->
      exists rs,
        element_state (is_tuple_value init) fs b = Ok rs /\
        ((0 < L)%Z ->
         exists s, nth_error states (Z.to_nat (L - 1)) = Some s /\
                   element_state (is_tuple_value init) s b = Ok rs) /\
        ((L <= 0)%Z -> element_state (is_tuple_value init) init b = Ok rs).
Proof.
  intros H.
  apply dynamic_rnn_ok_inv in H
    as (log1 & log2 & t & lengths & init & outs0 & Hp & Hl & -> & _).
  apply loop_ok_inv in Hl
    as (inner & xs & aos & ast & o & lens & fin
        & -> & Hs & Hto & _ & Htl & Hsel & Hst).
  pose proof Hs as Hs'.
  apply rnn_steps_outputs in Hs' as (ys & states' & _ & Hy & Hly & _);
    [|reflexivity].
  apply rnn_steps_ok in Hs as (_ & _ & states & Hu & Hlen & Hext);
    [|reflexivity|apply empty_history_variant].
  apply select_states_ok in Hsel as (new & -> & Hvn & Hrows);
    [|apply empty_history_variant].
  assert (Hnew : history_app (empty_history F (is_tuple_value init)) new
                 = new).
  { destruct (is_tuple_value init), new; simpl in *; tauto. }
  rewrite Hnew in Hst.
  exists log1, (Nd inner xs), lengths, init, lens, states.
  split; [exact Hp|]. split; [exact Htl|]. split; [exact Hu|].
  split; [exact Hlen|]. split.
  - simpl in Hy. subst aos. cbn [tensor_items]. rewrite <- Hly.
    destruct (torch_stack_items _ Hto) as (_ & Hne & _).
    destruct ys; [contradiction | simpl; lia].
  - intros b L Hb. destruct (Hrows b L Hb) as (rs & Hr & Hpos & Hzero).
    exists rs. split; [eapply stack_final_state_rows; eauto|]. split.
    + intros HL. eapply history_at_states; eauto.
    + exact Hzero.
Qed.

(** X13.  An entry of the sequence-length vector that is zero or
    negative selects the initial state for its batch element. *)
Theorem nonpositive_length_selects_initial_state
    (cell : rnn_cell) inputs sl st tm log outs fs :
  dynamic_rnn mask_sequences cell inputs sl st tm = (log, Ok (outs, fs)) ->
  exists log1 t lengths init lens,
    prepare cell inputs sl st tm = (log1, Ok (t, lengths, init)) /\
    tolist lengths = Ok lens /\
    forall b L,
      nth_error lens b = Some L -> (L <= 0)%Z ->
      exists rs,
        element_state (is_tuple_value init) fs b = Ok rs /\
        element_state (is_tuple_value init) init b = Ok rs.
Proof.
  intros H. apply final_state_rows in H
    as (log1 & t & lengths & init & lens & states
        & Hp & Htl & _ & _ & _ & Hrows).
  exists log1, t, lengths, init, lens.
  split; [exact Hp|]. split; [exact Htl|].
  intros b L Hb HL. destruct (Hrows b L Hb) as (rs & Hf & _ & Hz).
  exists rs. auto.
Qed.

Lemma tolist_full_vector T B :
  tolist (full_vector T B) = Ok (repeat (Z.of_nat T) B).
Proof.
  unfold tolist, full_vector. induction B as [|B IH]; simpl;
    [reflexivity|]. now rewrite IH.
Qed.

(** X14.  When the sequence-length vector is left out, the final state
    of every batch element is its row of the state returned by the last
    step. *)
Theorem omitted_sequence_length_selects_last_state
    (cell : rnn_cell) inputs st tm log outs fs :
  dynamic_rnn mask_sequences cell inputs None st tm = (log, Ok (outs, fs)) ->
  exists log1 t lengths init B states s_last,
    prepare cell inputs None st tm = (log1, Ok (t, lengths, init)) /\
    size_getitem (shape t) 1 = Ok B /\
    unroll cell (tensor_items t) init = Ok states /\
    nth_error states (length (tensor_items t) - 1) = Some s_last /\
    forall b,
      b < B ->
      exists rs,
        element_state (is_tuple_value init) fs b = Ok rs /\
        element_state (is_tuple_value init) s_last b = Ok rs.
Proof.
  intros H. apply final_state_rows in H
    as (log1 & t & lengths & init & lens & states
        & Hp & Htl & Hu & Hlen & Hpos & Hrows).
  pose proof Hp as Hp'.
  apply prepare_ok_inv in Hp' as (_ & _ & T & B & HT & HB & Hms & _).
  simpl in Hms. injection Hms as <-.
  rewrite tolist_full_vector in Htl. injection Htl as <-.
  assert (HTl : T = length (tensor_items t)).
  { destruct t as [a|inner xs]; [discriminate|].
    simpl in HT. now injection HT as <-. }
  destruct (nth_error states (length (tensor_items t) - 1)) as [s_last|]
    eqn:En; [|apply nth_error_None in En; lia].
  exists log1, t, (full_vector T B), init, B, states, s_last.
  split; [exact Hp|]. split; [exact HB|]. split; [exact Hu|].
  split; [exact En|].
  intros b Hb.
  destruct (Hrows b (Z.of_nat T)) as (rs & Hf & Hs & _).
  { now apply nth_error_repeat. }
  destruct Hs as (s & Hn & He); [lia|].
  replace (Z.to_nat (Z.of_nat T - 1)) with (length (tensor_items t) - 1)
    in Hn by lia.
  rewrite En in Hn. injection Hn as <-.
  exists rs. auto.
Qed.

(** X15.  The sequence lengths do not influence the computation of the
    cell: two runs that differ only in the sequence-length argument and
    both return have the same trace. *)
Theorem trace_independent_of_sequence_length
    (cell : rnn_cell) inputs sl1 sl2 st tm log1 r1 log2 r2 :
  dynamic_rnn mask_sequences cell inputs sl1 st tm = (log1, Ok r1) ->
  dynamic_rnn mask_sequences cell inputs sl2 st tm = (log2, Ok r2) ->
  log1 = log2.
Proof.
  destruct r1 as [o1 f1], r2 as [o2 f2]. intros H1 H2.
  apply dynamic_rnn_ok_inv in H1
    as (l1 & l1' & t1 & len1 & i1 & oo1 & Hp1 & Hl1 & -> & _).
  apply dynamic_rnn_ok_inv in H2
    as (l2 & l2' & t2 & len2 & i2 & oo2 & Hp2 & Hl2 & -> & _).
  apply prepare_ok_inv in Hp1 as (Ht1 & _ & T1 & B1 & _ & HB1 & _ & Hm1).
  apply prepare_ok_inv in Hp2 as (Ht2 & _ & T2 & B2 & _ & HB2 & _ & Hm2).
  rewrite Ht1 in Ht2. injection Ht2 as <-.
  rewrite HB1 in HB2. injection HB2 as <-.
  rewrite Hm1 in Hm2. injection Hm2 as <- <-.
  apply loop_ok_inv in Hl1
    as (inner & xs & aos & ast & o & lens & fin & -> & Hs1 & _).
  apply loop_ok_inv in Hl2
    as (inner' & xs' & aos' & ast' & o' & lens' & fin' & E & Hs2 & _).
  injection E as <- <-.
  rewrite Hs1 in Hs2. now injection Hs2 as <-.
Qed.


Lemma materialize_supplied sl T B lengths :
  materialize_sequence_length (Some sl) T B = Ok lengths ->
  lengths = tensor_map to_int32 sl.
Proof.
  unfold materialize_sequence_length.
  destruct (negb (dim (tensor_map to_int32 sl) =? 1)).
  - destruct (percent_format_size _); discriminate.
  - destruct (negb (shape_eqb (shape (tensor_map to_int32 sl)) [B])).
    + destruct (percent_format_size _); discriminate.
    + intros H; now inversion H.
Qed.

(** Entries that fit 32 bits reach the selection loop unchanged. *)
Lemma prepare_vector_lengths (cell : rnn_cell) inputs zs st tm
      log1 t lengths init :
  prepare cell inputs (Some (vector zs)) st tm
    = (log1, Ok (t, lengths, init)) ->
  Forall (fun z => (- 2147483648 <= z < 2147483648)%Z) zs ->
  tolist lengths = Ok zs.
Proof.
  intros Hp Hall.
  apply prepare_ok_inv in Hp as (_ & _ & T & B & _ & _ & Hms & _).
  pose proof (materialize_ok_shape _ _ _ Hms) as Hsh.
  pose proof (materialize_supplied _ _ _ Hms) as E.
  rewrite E, tensor_map_shape in Hsh. unfold vector in Hsh.
  cbn [shape] in Hsh. rewrite length_map in Hsh. injection Hsh as Hlen.
  rewrite (materialize_vector T Hlen Hall) in Hms. injection Hms as <-.
  apply tolist_vector.
Qed.

Lemma final_state_is_tuple (cell : rnn_cell) inputs sl st tm
      log outs fs log1 t lengths init :
  dynamic_rnn mask_sequences cell inputs sl st tm = (log, Ok (outs, fs)) ->
  prepare cell inputs sl st tm = (log1, Ok (t, lengths, init)) ->
  is_tuple_value fs = is_tuple_value init.
Proof.
  intros H Hp. apply dynamic_rnn_ok_inv in H
    as (l1 & l2 & t' & len' & init' & outs0 & Hp' & Hl & _).
  rewrite Hp in Hp'. injection Hp' as <- <- <- <-.
  apply final_state_variant in Hl.
  destruct (is_tuple_value init).
  - destruct Hl as (t0 & t1 & ->). reflexivity.
  - destruct Hl as (t0 & ->). reflexivity.
Qed.

(** X16.  The final state of a batch element depends on the sequence
    lengths only through its own entry: two runs whose supplied vectors
    agree at position [b] return the same state for element [b]. *)
Theorem final_state_row_depends_on_own_length
    (cell : rnn_cell) inputs zs1 zs2 st tm b L log1 o1 fs1 log2 o2 fs2 :
  Forall (fun z => (- 2147483648 <= z < 2147483648)%Z) zs1 ->
  Forall (fun z => (- 2147483648 <= z < 2147483648)%Z) zs2 ->
  nth_error zs1 b = Some L ->
  nth_error zs2 b = Some L ->
  dynamic_rnn mask_sequences cell inputs (Some (vector zs1)) st tm
    = (log1, Ok (o1, fs1)) ->
  dynamic_rnn mask_sequences cell inputs (Some (vector zs2)) st tm
    = (log2, Ok (o2, fs2)) ->
  exists rs,
    element_state (is_tuple_value fs1) fs1 b = Ok rs /\
    element_state (is_tuple_value fs2) fs2 b = Ok rs.
Proof.
  intros Ha1 Ha2 Hb1 Hb2 H1 H2.
  pose proof H1 as R1. pose proof H2 as R2.
  apply final_state_rows in R1
    as (l1 & t1 & len1 & i1 & lens1 & st1 & Hp1 & Htl1 & Hu1 & _ & _ & Hr1).
  apply final_state_rows in R2
    as (l2 & t2 & len2 & i2 & lens2 & st2 & Hp2 & Htl2 & Hu2 & _ & _ & Hr2).
  assert (E1 : is_tuple_value fs1 = is_tuple_value i1)
    by (eapply final_state_is_tuple; eassumption).
  assert (E2 : is_tuple_value fs2 = is_tuple_value i2)
    by (eapply final_state_is_tuple; eassumption).
  rewrite E1, E2.
  assert (L1 : tolist len1 = Ok zs1)
    by (eapply prepare_vector_lengths; eassumption).
  assert (L2 : tolist len2 = Ok zs2)
    by (eapply prepare_vector_lengths; eassumption).
  rewrite L1 in Htl1. rewrite L2 in Htl2.
  injection Htl1 as <-. injection Htl2 as <-.
  apply prepare_ok_inv in Hp1 as (Ht1 & _ & T1 & B1 & _ & HB1 & _ & Hm1).
  apply prepare_ok_inv in Hp2 as (Ht2 & _ & T2 & B2 & _ & HB2 & _ & Hm2).
  rewrite Ht1 in Ht2. injection Ht2 as <-.
  rewrite HB1 in HB2. injection HB2 as <-.
  rewrite Hm1 in Hm2. injection Hm2 as <- <-.
  rewrite Hu1 in Hu2. injection Hu2 as <-.
  destruct (Hr1 b L Hb1) as (rs1 & Hf1 & Hpos1 & Hz1).
  destruct (Hr2 b L Hb2) as (rs2 & Hf2 & Hpos2 & Hz2).
  exists rs1. split; [exact Hf1|].
  rewrite Hf2. f_equal.
  destruct (Z.lt_ge_cases 0 L) as [HL|HL].
  - destruct (Hpos1 HL) as (s & Hn & He).
    destruct (Hpos2 HL) as (s' & Hn' & He').
    rewrite Hn in Hn'. injection Hn' as <-. congruence.
  - specialize (Hz1 HL). specialize (Hz2 HL). congruence.
Qed.


(** *** Outputs that cannot be stacked, and the extent of the outputs *)

Lemma as_tensors_tuple (vs : list value) items :
  In (VTuple items) vs -> as_tensors vs = None.
Proof.
  induction vs as [|[t|l] vs IH]; simpl; intros H.
  - destruct H.
  - destruct H as [H|H]; [discriminate|]. now rewrite (IH H).
  - reflexivity.
Qed.

(** X17.  Outputs that are tuples are not supported: when the step loop
    completes and one of the outputs of the cell is a tuple, the run ends
    in [TypeError], raised by the stacking of the outputs after the cell
    has been invoked for every time index. *)
Theorem tuple_outputs_raise_type_error
    (cell : rnn_cell) inputs sl st tm
    log1 t lengths init T log2 outs hist items :
  prepare cell inputs sl st tm = (log1, Ok (t, lengths, init)) ->
  size_getitem (shape t) 0 = Ok T ->
  rnn_steps cell t (is_tuple_value init) (seq 0 T) init []
            (empty_history F (is_tuple_value init))
    = (log2, Ok (outs, hist)) ->
  In (VTuple items) outs ->
  dynamic_rnn mask_sequences cell inputs sl st tm
    = (log1 ++ log2, Err TypeError)
  /\ call_count (log1 ++ log2) = T.
Proof.
  intros Hp HT Hs Hin. split.
  - eapply dynamic_rnn_loop_err; [exact Hp|].
    unfold _dynamic_rnn_loop. rewrite HT, bind_lift_ok, Hs, bind_ok.
    cbv beta iota. unfold torch_stack.
    rewrite (as_tensors_tuple _ _ Hin), bind_lift_err.
    cbn [fst snd]. now rewrite app_nil_r.
  - destruct t as [a|inner xs]; [discriminate|].
    simpl in HT. injection HT as <-.
    apply prepare_ok_inv in Hp as (_ & Hl1 & _).
    apply rnn_steps_ok in Hs as (Hci & _);
      [|reflexivity|apply empty_history_variant].
    rewrite call_count_inputs, call_inputs_app, Hl1, Hci.
    simpl. now rewrite length_map.
Qed.

(** X18.  When masking keeps the shape of its argument, the outputs of
    a run that returns have as many time steps as the inputs, whatever
    the sequence lengths are: along the first axis in time-major mode,
    along the second in batch-major mode. *)
Theorem outputs_keep_time_extent
    (cell : rnn_cell) inputs sl st tm log outs fs :
  (forall o l o', mask_sequences o l = Ok o' -> shape o' = shape o) ->
  dynamic_rnn mask_sequences cell inputs sl st tm = (log, Ok (outs, fs)) ->
  exists t T,
    time_major_inputs inputs tm = Ok t /\
    size_getitem (shape t) 0 = Ok T /\
    size_getitem (shape outs) (if tm then 0 else 1) = Ok T.
Proof.
  intros Hmask H.
  apply dynamic_rnn_ok_inv in H
    as (log1 & log2 & t & lengths & init & outs0 & Hp & Hl & -> & Ho).
  apply prepare_ok_inv in Hp as (Ht & _).
  apply loop_ok_inv in Hl
    as (inner & xs & aos & ast & o & lens & fin
        & -> & Hs & Hst & Hm & _).
  apply rnn_steps_outputs in Hs as (ys & states & _ & -> & Hlen & _);
    [|reflexivity].
  simpl in Hst. apply torch_stack_extent in Hst. rewrite Hlen in Hst.
  apply Hmask in Hm. rewrite <- Hm in Hst.
  exists (Nd inner xs), (length xs).
  split; [exact Ht|]. split; [reflexivity|].
  destruct tm; [now subst|].
  destruct outs0 as [a|[|b [|d [|]]] items]; try discriminate.
  simpl in Ho. injection Ho as <-.
  simpl in Hst. injection Hst as Hst. simpl. now rewrite Hst.
Qed.

End Properties.

(** ** The concrete runtime *)

Lemma mask_slice_length t lengths row :
  length (mask_slice t lengths row) = length row.
Proof.
  revert lengths; induction row as [|x row IH]; intros [|l lengths];
    simpl; auto.
Qed.

Lemma mask_slices_length lengths rows :
  forall t, length (mask_slices t lengths rows) = length rows.
Proof.
  induction rows as [|[a|inner row] rows IH]; intros t; simpl; auto.
Qed.

(** Masking changes entries, never the shape. *)
Lemma mask_sequences_spec_shape sequence sl r :
  mask_sequences_spec sequence sl = Ok r -> shape r = shape sequence.
Proof.
  unfold mask_sequences_spec. destruct (tolist sl); [|discriminate].
  destruct sequence; simpl; intros H; inversion H; subst; simpl.
  - reflexivity.
  - now rewrite mask_slices_length.
Qed.

Example example_tensors_well_formed :
  wf_tensor inputs_2_3_1 = true /\ wf_tensor inputs_3_2_1 = true /\
  wf_tensor example_outputs = true.
Proof. repeat split. Qed.

Example example_transpose_round_trip :
  permute_1_0_2 inputs_2_3_1 = Ok inputs_3_2_1 /\
  permute_1_0_2 inputs_3_2_1 = Ok inputs_2_3_1 /\
  permute_1_0_2 example_outputs_time_major = Ok example_outputs.
Proof. repeat split. Qed.

Example example_run_time_major :
  dynamic_rnn_Z counting_cell (Some (VTensor inputs_3_2_1)) example_lengths
                None true
    = (example_log, Ok (example_outputs_time_major, example_final_state)).
Proof. reflexivity. Qed.

(** ** The general properties at the example run *)

Example example_run :
  dynamic_rnn_Z counting_cell example_inputs example_lengths None false
    = (example_log, Ok (example_outputs, example_final_state)).
Proof. reflexivity. Qed.

Lemma final_state_is_state_at_last_valid_step_witness :
  exists log1 t lengths init lens states,
    prepare counting_cell example_inputs example_lengths None false
      = (log1, Ok (t, lengths, init)) /\
    tolist lengths = Ok lens /\
    unroll counting_cell (tensor_items t) init = Ok states /\
    forall b L,
      nth_error lens b = Some L ->
      exists rs,
        element_state (is_tuple_value init) example_final_state b = Ok rs /\
        ((0 < L)%Z ->
         exists s, nth_error states (Z.to_nat (L - 1)) = Some s /\
                   element_state (is_tuple_value init) s b = Ok rs) /\
        (L = 0%Z -> element_state (is_tuple_value init) init b = Ok rs).
Proof.
  apply (@final_state_is_state_at_last_valid_step
           Z mask_sequences_spec counting_cell example_inputs
           example_lengths None false example_log example_outputs
           example_final_state).
  reflexivity.
Defined.

Lemma one_invocation_per_time_index_witness :
  exists t,
    time_major_inputs example_inputs false = Ok t /\
    call_inputs example_log = map VTensor (tensor_items t) /\
    size_getitem (shape t) 0 = Ok (call_count example_log).
Proof.
  apply (@one_invocation_per_time_index
           Z mask_sequences_spec counting_cell example_inputs
           example_lengths None false example_log
           (example_outputs, example_final_state)).
  reflexivity.
Defined.

Lemma omitted_sequence_length_is_full_length_witness :
  dynamic_rnn_Z counting_cell example_inputs None None false
    = dynamic_rnn_Z counting_cell example_inputs (Some (full_vector 3 2))
                    None false.
Proof.
  apply (@omitted_sequence_length_is_full_length
           Z mask_sequences_spec counting_cell example_inputs None false
           inputs_3_2_1 3 2);
    [reflexivity | reflexivity | reflexivity | simpl; lia].
Defined.




(** ** The further properties at concrete runs *)

Lemma outputs_are_masked_stack_of_cell_outputs_witness :
  exists log1 t lengths init ys o o',
    prepare counting_cell example_inputs example_lengths None false
      = (log1, Ok (t, lengths, init)) /\
    unroll_outputs counting_cell (tensor_items t) init = Ok ys /\
    length ys = length (tensor_items t) /\
    torch_stack ys = Ok o /\
    mask_sequences_spec o lengths = Ok o' /\
    permute_1_0_2 o' = Ok example_outputs.
Proof.
  apply (@outputs_are_masked_stack_of_cell_outputs
           Z mask_sequences_spec counting_cell example_inputs
           example_lengths None false example_log example_outputs
           example_final_state).
  reflexivity.
Defined.

Lemma each_step_receives_previous_state_witness :
  exists log1 t lengths init states,
    prepare counting_cell example_inputs example_lengths None false
      = (log1, Ok (t, lengths, init)) /\
    unroll counting_cell (tensor_items t) init = Ok states /\
    call_states example_log = removelast (init :: states).
Proof.
  apply (@each_step_receives_previous_state
           Z mask_sequences_spec counting_cell example_inputs
           example_lengths None false example_log
           (example_outputs, example_final_state)).
  reflexivity.
Defined.

Lemma wrong_length_vector_raises_value_error_witness :
  dynamic_rnn_Z counting_cell example_inputs (Some (vector [2; 3; 3]%Z))
                None false
    = ([], Err ValueError).
Proof.
  apply (@wrong_length_vector_raises_value_error
           Z mask_sequences_spec counting_cell example_inputs
           (vector [2; 3; 3]%Z) None false inputs_3_2_1 3 2);
    [reflexivity | reflexivity | reflexivity | reflexivity | discriminate].
Defined.

Lemma wrong_rank_sequence_length_raises_type_error_witness :
  dynamic_rnn_Z counting_cell example_inputs
                (Some (Nd [2] [vector [2; 3]%Z])) None false
    = ([], Err TypeError).
Proof.
  apply (@wrong_rank_sequence_length_raises_type_error
           Z mask_sequences_spec counting_cell example_inputs
           (Nd [2] [vector [2; 3]%Z]) None false inputs_3_2_1 3 2);
    [reflexivity | reflexivity | reflexivity | discriminate].
Defined.

Lemma missing_zero_state_raises_attribute_error_witness :
  dynamic_rnn_Z bare_function example_inputs example_lengths None false
    = ([], Err AttributeError).
Proof.
  apply (@missing_zero_state_raises_attribute_error
           Z mask_sequences_spec bare_function example_inputs
           example_lengths false inputs_3_2_1 3 2 (vector [2; 3]%Z));
    reflexivity.
Defined.

Lemma zero_state_built_once_before_steps_witness :
  exists t B calls,
    time_major_inputs example_inputs false = Ok t /\
    size_getitem (shape t) 1 = Ok B /\
    example_log = EvZeroState B :: calls /\
    forall e, In e calls -> is_call e = true.
Proof.
  apply (@zero_state_built_once_before_steps
           Z mask_sequences_spec counting_cell example_inputs
           example_lengths false example_log
           (example_outputs, example_final_state)).
  reflexivity.
Defined.

Lemma supplied_state_ignores_zero_state_witness :
  dynamic_rnn_Z counting_cell example_inputs example_lengths
                (Some (VTensor (column_matrix [5; 6]%Z))) false
    = dynamic_rnn_Z bare_function example_inputs example_lengths
                    (Some (VTensor (column_matrix [5; 6]%Z))) false.
Proof.
  apply (@supplied_state_ignores_zero_state
           Z mask_sequences_spec counting_cell bare_function example_inputs
           example_lengths (VTensor (column_matrix [5; 6]%Z)) false).
  reflexivity.
Defined.

Lemma not_callable_fails_at_first_step_witness :
  dynamic_rnn_Z not_callable example_inputs example_lengths None false
    = ([EvZeroState 2], Err TypeError)
  /\ call_count [EvZeroState (F:=Z) 2] = 0.
Proof.
  apply (@not_callable_fails_at_first_step
           Z mask_sequences_spec not_callable example_inputs
           example_lengths None false [EvZeroState 2] inputs_3_2_1
           (vector [2; 3]%Z) example_zero_state 2);
    reflexivity.
Defined.

Lemma zero_time_extent_raises_runtime_error_witness :
  dynamic_rnn_Z counting_cell (Some (VTensor (Nd [2; 1] []))) None None true
    = ([EvZeroState 2], Err RuntimeError)
  /\ call_count [EvZeroState (F:=Z) 2] = 0.
Proof.
  apply (@zero_time_extent_raises_runtime_error
           Z mask_sequences_spec counting_cell
           (Some (VTensor (Nd [2; 1] []))) None None true
           [EvZeroState 2] (Nd [2; 1] []) (full_vector 0 2)
           example_zero_state);
    reflexivity.
Defined.

Lemma empty_batch_raises_runtime_error_witness :
  exists log,
    dynamic_rnn_Z counting_cell
                  (Some (VTensor (Nd [0; 1] [Nd [1] []; Nd [1] []; Nd [1] []])))
                  None None true
      = (log, Err RuntimeError)
    /\ call_count log = 3.
Proof.
  eexists.
  eapply (@empty_batch_raises_runtime_error
            Z mask_sequences_spec counting_cell
            (Some (VTensor (Nd [0; 1] [Nd [1] []; Nd [1] []; Nd [1] []])))
            None None true
            [EvZeroState 0] (Nd [0; 1] [Nd [1] []; Nd [1] []; Nd [1] []])
            (full_vector 3 0) (VTensor (Nd [1] [])) 3);
    reflexivity.
Defined.

Lemma cell_error_propagates_witness :
  exists log2,
    dynamic_rnn_Z failing_cell example_inputs example_lengths None false
      = ([EvZeroState 2] ++ log2, Err (OtherError 7))
    /\ call_count log2 = 2.
Proof.
  eapply (@cell_error_propagates
            Z mask_sequences_spec failing_cell example_inputs
            example_lengths None false [EvZeroState 2] inputs_3_2_1
            (vector [2; 3]%Z) example_zero_state _ 1
            [VTensor (column_matrix [1; 1]%Z)]
            (column_matrix [12; 22]%Z) (OtherError 7));
    reflexivity.
Defined.

Lemma final_state_variant_and_batch_extent_witness :
  exists log1 t lengths init B,
    prepare counting_cell example_inputs example_lengths None false
      = (log1, Ok (t, lengths, init)) /\
    size_getitem (shape t) 1 = Ok B /\
    if is_tuple_value init
    then exists t0 t1,
        example_final_state = VTuple [VTensor t0; VTensor t1] /\
        size_getitem (shape t0) 0 = Ok B /\
        size_getitem (shape t1) 0 = Ok B
    else exists t0,
        example_final_state = VTensor t0 /\
        size_getitem (shape t0) 0 = Ok B.
Proof.
  apply (@final_state_variant_and_batch_extent
           Z mask_sequences_spec counting_cell example_inputs
           example_lengths None false example_log example_outputs
           example_final_state).
  reflexivity.
Defined.

Lemma nonpositive_length_selects_initial_state_witness :
  exists log1 t lengths init lens,
    prepare counting_cell example_inputs (Some (vector [-1; 3]%Z)) None false
      = (log1, Ok (t, lengths, init)) /\
    tolist lengths = Ok lens /\
    forall b L,
      nth_error lens b = Some L -> (L <= 0)%Z ->
      exists rs,
        element_state (is_tuple_value init)
                      (VTensor (column_matrix [0; 3]%Z)) b = Ok rs /\
        element_state (is_tuple_value init) init b = Ok rs.
Proof.
  eapply (@nonpositive_length_selects_initial_state
            Z mask_sequences_spec counting_cell example_inputs
            (Some (vector [-1; 3]%Z)) None false).
  reflexivity.
Defined.

Lemma omitted_sequence_length_selects_last_state_witness :
  exists log1 t lengths init B states s_last,
    prepare counting_cell example_inputs None None false
      = (log1, Ok (t, lengths, init)) /\
    size_getitem (shape t) 1 = Ok B /\
    unroll counting_cell (tensor_items t) init = Ok states /\
    nth_error states (length (tensor_items t) - 1) = Some s_last /\
    forall b,
      b < B ->
      exists rs,
        element_state (is_tuple_value init)
                      (VTensor (column_matrix [3; 3]%Z)) b = Ok rs /\
        element_state (is_tuple_value init) s_last b = Ok rs.
Proof.
  eapply (@omitted_sequence_length_selects_last_state
            Z mask_sequences_spec counting_cell example_inputs None false).
  reflexivity.
Defined.

Lemma trace_independent_of_sequence_length_witness :
  fst (dynamic_rnn_Z counting_cell example_inputs example_lengths None false)
  = fst (dynamic_rnn_Z counting_cell example_inputs None None false).
Proof.
  eapply (@trace_independent_of_sequence_length
            Z mask_sequences_spec counting_cell example_inputs
            example_lengths None None false);
    reflexivity.
Defined.

Lemma final_state_row_depends_on_own_length_witness :
  exists rs,
    element_state (is_tuple_value example_final_state)
                  example_final_state 0 = Ok rs /\
    element_state (is_tuple_value (VTensor (column_matrix [2; 1]%Z)))
                  (VTensor (column_matrix [2; 1]%Z)) 0 = Ok rs.
Proof.
  eapply (@final_state_row_depends_on_own_length
            Z mask_sequences_spec counting_cell example_inputs
            [2; 3]%Z [2; 1]%Z None false 0 2%Z);
    [repeat constructor; lia | repeat constructor; lia
    | reflexivity | reflexivity | reflexivity | reflexivity].
Defined.

Lemma tuple_outputs_raise_type_error_witness :
  exists log,
    dynamic_rnn_Z pair_output_cell example_inputs example_lengths None false
      = (log, Err TypeError)
    /\ call_count log = 3.
Proof.
  eexists.
  eapply (@tuple_outputs_raise_type_error
            Z mask_sequences_spec pair_output_cell example_inputs
            example_lengths None false [EvZeroState 2] inputs_3_2_1
            (vector [2; 3]%Z) example_zero_state 3 _ _ _
            [VTensor (column_matrix [11; 21]%Z);
             VTensor (column_matrix [11; 21]%Z)]);
    [reflexivity | reflexivity | reflexivity | left; reflexivity].
Defined.

Lemma outputs_keep_time_extent_witness :
  exists t T,
    time_major_inputs example_inputs false = Ok t /\
    size_getitem (shape t) 0 = Ok T /\
    size_getitem (shape example_outputs) 1 = Ok T.
Proof.
  apply (@outputs_keep_time_extent
           Z mask_sequences_spec counting_cell example_inputs
           example_lengths None false example_log example_outputs
           example_final_state);
    [exact mask_sequences_spec_shape | reflexivity].
Defined.
